(** * simpleBackupWithGit: backup placement, exclusion policy and git upload

    A shallow embedding of [code/main.py] and [code/github_uploader.py].

    Conventions of the embedding.
    - A Python [str] is a [string]; the model covers ASCII text: a character
      above 127 has no case and is not white space.
    - A Python [set] of strings is a [gset string], a [dict] a [gmap].
    - Paths follow [posixpath] (separator [/]), the flavour the
      specification writes its paths in.
    - Code that touches the file system, the clock, the process environment
      or runs a subprocess is a computation in the monad [M]: it threads a
      [World] and either returns a value or raises a Python exception. *)

From Stdlib Require Import ZArith Lia Bool Ascii DecimalString.
From stdpp Require Import base option list gmap sets strings.

Local Open Scope Z_scope.

(** ** Python strings *)

Module Py.

Definition ord (c : ascii) : Z := Z.of_nat (nat_of_ascii c).

(** [c.lower()] on one ASCII character. *)
Definition chr_lower (c : ascii) : ascii :=
  if (65 <=? ord c) && (ord c <=? 90)
  then ascii_of_nat (nat_of_ascii c + 32) else c.

(** [s.lower()] *)
Fixpoint lower (s : string) : string :=
  match s with
  | EmptyString => EmptyString
  | String c r => String (chr_lower c) (lower r)
  end.

(** [c.isspace()]: tab, line feed, vertical tab, form feed, carriage return,
    the four separators 28..31 and the blank. *)
Definition isspace (c : ascii) : bool :=
  ((9 <=? ord c) && (ord c <=? 13)) || ((28 <=? ord c) && (ord c <=? 32)).

Fixpoint lstrip (s : string) : string :=
  match s with
  | EmptyString => EmptyString
  | String c r => if isspace c then lstrip r else s
  end.

Definition rstrip (s : string) : string := String.rev (lstrip (String.rev s)).

(** [s.strip()] *)
Definition strip (s : string) : string := rstrip (lstrip s).

(** [s.startswith(p)] *)
Fixpoint startswith (s p : string) {struct p} : bool :=
  match p, s with
  | EmptyString, _ => true
  | String _ _, EmptyString => false
  | String a p', String b s' => if decide (a = b) then startswith s' p' else false
  end.

(** [s.endswith(p)] *)
Definition endswith (s p : string) : bool :=
  startswith (String.rev s) (String.rev p).

(** [sub in s] *)
Fixpoint contains (sub s : string) : bool :=
  startswith s sub ||
  match s with
  | EmptyString => false
  | String _ r => contains sub r
  end.

(** [s.lstrip(".")]: every leading occurrence of the character goes. *)
Fixpoint lstrip_chr (c : ascii) (s : string) : string :=
  match s with
  | EmptyString => EmptyString
  | String a r => if decide (a = c) then lstrip_chr c r else s
  end.

(** [str(n)] for an integer. *)
Definition str_of_Z (n : Z) : string := NilZero.string_of_int (Z.to_int n).

Fixpoint repeat_chr (c : ascii) (n : nat) : string :=
  match n with O => EmptyString | S k => String c (repeat_chr c k) end.

(** [format(n, "0{w}d")] for [0 <= n]: zero padding on the left up to the
    width [w], never a truncation. *)
Definition zfill (w : nat) (n : Z) : string :=
  let s := str_of_Z n in
  repeat_chr "0" (w - String.length s) +:+ s.

(** The lines a text file yields when iterated: each line keeps its
    terminating line feed; a last line without one is yielded as it is. *)
Fixpoint readlines_go (cur : string) (s : string) : list string :=
  match s with
  | EmptyString =>
      match cur with EmptyString => [] | _ => [String.rev cur] end
  | String c r =>
      if decide (c = "010"%char)
      then String.rev (String c cur) :: readlines_go EmptyString r
      else readlines_go (String c cur) r
  end.
Definition readlines (s : string) : list string := readlines_go EmptyString s.

(** [s.split(c, 1)] for a string that contains [c]: what is before and
    what is after the first [c]. *)
Fixpoint split_once (c : ascii) (s : string) : string * string :=
  match s with
  | EmptyString => (EmptyString, EmptyString)
  | String a r =>
      if decide (a = c) then (EmptyString, r)
      else let '(k, v) := split_once c r in (String a k, v)
  end.

(** The one-character string that holds a double quote. *)
Definition dquote : string := String "034"%char EmptyString.

(** [not s] for an optional string: [None] and the empty string are falsy. *)
Definition falsy (o : option string) : bool :=
  match o with
  | None => true
  | Some s => if decide (s = EmptyString) then true else false
  end.

End Py.

(** [s[n:]] and [s[:n]] for [0 <= n]. *)
Module Slice.

Fixpoint drop (n : nat) (s : string) : string :=
  match n, s with
  | O, _ => s
  | S k, String _ r => drop k r
  | S _, EmptyString => EmptyString
  end.

Fixpoint take (n : nat) (s : string) : string :=
  match n, s with
  | O, _ => EmptyString
  | S k, String c r => String c (take k r)
  | S _, EmptyString => EmptyString
  end.

(** [s[i:i+1]], the empty string past the end. *)
Definition at_ (i : Z) (s : string) : string := take 1 (drop (Z.to_nat i) s).

(** [s.rfind(c)] for a one-character [c]: the highest index, [-1] if none. *)
Fixpoint rfind_go (s : string) (c : ascii) (i last : Z) : Z :=
  match s with
  | EmptyString => last
  | String a r => rfind_go r c (i + 1) (if decide (a = c) then i else last)
  end.
Definition rfind (s : string) (c : ascii) : Z := rfind_go s c 0 (-1).

End Slice.

(** ** posixpath *)

Module posixpath.

Definition sep : string := "/".

(** One round of the loop of [posixpath.join]. *)
Definition join_step (path b : string) : string :=
  if Py.startswith b sep then b
  else if decide (path = EmptyString) then path +:+ b
  else if Py.endswith path sep then path +:+ b
  else path +:+ sep +:+ b.

(** [os.path.join(a, *p)] *)
Definition join (a : string) (p : list string) : string := foldl join_step a p.

(** [os.path.basename(p)] *)
Definition basename (p : string) : string :=
  let i := Slice.rfind p "/" + 1 in
  Slice.drop (Z.to_nat i) p.

(** The [while] loop of [genericpath._splitext]: is there, among the [n]
    characters from [filenameIndex] on, one that is not a dot? *)
Fixpoint has_stem (p : string) (filenameIndex : Z) (n : nat) : bool :=
  match n with
  | O => false
  | S k =>
      if decide (Slice.at_ filenameIndex p <> ".") then true
      else has_stem p (filenameIndex + 1) k
  end.

(** [os.path.splitext(p)] *)
Definition splitext (p : string) : string * string :=
  let sepIndex := Slice.rfind p "/" in
  let dotIndex := Slice.rfind p "." in
  if (sepIndex <? dotIndex)
     && has_stem p (sepIndex + 1) (Z.to_nat (dotIndex - (sepIndex + 1)))
  then (Slice.take (Z.to_nat dotIndex) p, Slice.drop (Z.to_nat dotIndex) p)
  else (p, EmptyString).

End posixpath.

(** ** datetime *)

Module datetime.

(** A [datetime.datetime] value, in local time. The constructor of the
    Python class only builds values that satisfy [valid]. *)
Record t := mk {
  year : Z; month : Z; day : Z;
  hour : Z; minute : Z; second : Z
}.

Definition is_leap (y : Z) : bool :=
  (y mod 4 =? 0) && (negb (y mod 100 =? 0) || (y mod 400 =? 0)).

Definition days_before_year (year : Z) : Z :=
  let y := year - 1 in
  y * 365 + y / 4 - y / 100 + y / 400.

Definition DAYS_IN_MONTH (m : Z) : Z :=
  match m with
  | 1 => 31 | 2 => 28 | 3 => 31 | 4 => 30 | 5 => 31 | 6 => 30
  | 7 => 31 | 8 => 31 | 9 => 30 | 10 => 31 | 11 => 30 | 12 => 31
  | _ => -1
  end.

Definition DAYS_BEFORE_MONTH (m : Z) : Z :=
  match m with
  | 1 => 0 | 2 => 31 | 3 => 59 | 4 => 90 | 5 => 120 | 6 => 151
  | 7 => 181 | 8 => 212 | 9 => 243 | 10 => 273 | 11 => 304 | 12 => 334
  | _ => -1
  end.

Definition days_in_month (year month : Z) : Z :=
  if (month =? 2) && is_leap year then 29 else DAYS_IN_MONTH month.

Definition days_before_month (year month : Z) : Z :=
  DAYS_BEFORE_MONTH month + (if (2 <? month) && is_leap year then 1 else 0).

(** The proleptic Gregorian ordinal, 1 for 0001-01-01. *)
Definition ymd2ord (year month day : Z) : Z :=
  days_before_year year + days_before_month year month + day.

(** The ordinal of the Monday that starts ISO week 1 of [year]. *)
Definition isoweek1monday (year : Z) : Z :=
  let THURSDAY := 3 in
  let firstday := ymd2ord year 1 1 in
  let firstweekday := (firstday + 6) mod 7 in
  let week1monday := firstday - firstweekday in
  if THURSDAY <? firstweekday then week1monday + 7 else week1monday.

(** [d.isocalendar()]: ISO year, ISO week (1..53), ISO week day (1..7). *)
Definition isocalendar (d : t) : Z * Z * Z :=
  let week1monday := isoweek1monday (year d) in
  let today := ymd2ord (year d) (month d) (day d) in
  let week := (today - week1monday) / 7 in
  let wday := (today - week1monday) mod 7 in
  if week <? 0 then
    let week1monday := isoweek1monday (year d - 1) in
    (year d - 1, (today - week1monday) / 7 + 1, (today - week1monday) mod 7 + 1)
  else if (52 <=? week) && (isoweek1monday (year d + 1) <=? today) then
    (year d + 1, 1, wday + 1)
  else (year d, week + 1, wday + 1).

Definition valid (d : t) : Prop :=
  1 <= year d <= 9999 /\ 1 <= month d <= 12
  /\ 1 <= day d <= days_in_month (year d) (month d)
  /\ 0 <= hour d <= 23 /\ 0 <= minute d <= 59 /\ 0 <= second d <= 59.

(** [d.strftime("%Y")], [d.strftime("%m")]: four and two digits. *)
Definition strftime_Y (d : t) : string := Py.zfill 4 (year d).
Definition strftime_m (d : t) : string := Py.zfill 2 (month d).

(** [d.strftime("%Y-%m-%d %H:%M:%S")] *)
Definition strftime_full (d : t) : string :=
  Py.zfill 4 (year d) +:+ "-" +:+ Py.zfill 2 (month d) +:+ "-" +:+ Py.zfill 2 (day d)
  +:+ " " +:+ Py.zfill 2 (hour d) +:+ ":" +:+ Py.zfill 2 (minute d)
  +:+ ":" +:+ Py.zfill 2 (second d).

End datetime.

(** ** Floats with two decimals

    [round(n / d, 2)] for integers [0 <= n] and [0 < d].  In [main.py] the
    divisor is [2^20] and [n] a file size, so the quotient is exact in
    binary64 for every size below [2^53] bytes, and [round] returns the
    float nearest to the closest decimal with two fractional digits (ties to
    the even hundredth).  Such a float is identified by its number of
    hundredths, which is what [float2] holds. *)

Module Float2.

Definition float2 := Z.

Definition round2 (n d : Z) : float2 :=
  let q := (100 * n) / d in
  let r := (100 * n) mod d in
  if 2 * r <? d then q
  else if d <? 2 * r then q + 1
  else if Z.even q then q else q + 1.

(** [repr(x)]: the shortest decimal that reads back as [x], with at least
    one fractional digit: [30.0], [25.5], [25.01]. *)
Definition repr (x : float2) : string :=
  let frac := x mod 100 in
  Py.str_of_Z (x / 100) +:+ "." +:+
  (if frac mod 10 =? 0 then Py.str_of_Z (frac / 10) else Py.zfill 2 frac).

End Float2.

(** ** The world of the scripts and the monad of effects *)

Module OS.

Record stat_result := mk_stat {
  st_size : Z;                 (* os.path.getsize *)
  st_ctime : datetime.t        (* datetime.fromtimestamp(os.path.getctime(..)) *)
}.

(** One [subprocess.run]: the command line and the working directory. *)
Record call := mk_call { argv : list string; cwd : string }.

Record completed := mk_completed {
  returncode : Z; proc_stdout : string; proc_stderr : string
}.

Record World := mk_world {
  (* regular files os.stat can see; absent: the call raises *)
  w_stat : gmap string stat_result;
  (* text of the files that can be opened for reading *)
  w_text : gmap string string;
  (* directories *)
  w_dirs : gset string;
  (* paths at which creating, writing or chmod is refused *)
  w_locked : gset string;
  (* the clock, as [datetime.now()] reads it *)
  w_now : datetime.t;
  (* os.environ *)
  w_environ : gmap string string;
  (* permission bits set by os.chmod *)
  w_modes : gmap string Z;
  (* how a subprocess answers, given the ones run before it;
     [None]: the program cannot be started *)
  w_spawn : list call -> call -> option completed;
  (* the subprocesses run so far, oldest first *)
  w_calls : list call;
  (* the successful [shutil.copy2 src dst] calls, oldest first *)
  w_copied : list (string * string);
  (* what [print] wrote, oldest first *)
  w_stdout : list string
}.

Inductive exn :=
  | FileNotFoundError (path : string)
  | PermissionError (path : string)
  | FileExistsError (path : string)
  | CalledProcessError (code : Z) (stderr : string)
  | KeyError (key : string)
  | IndexError (msg : string)
  | ValueError (msg : string).

(** [str(e)] *)
Definition exn_str (e : exn) : string :=
  match e with
  | FileNotFoundError p => "[Errno 2] No such file or directory: '" +:+ p +:+ "'"
  | PermissionError p => "[Errno 13] Permission denied: '" +:+ p +:+ "'"
  | FileExistsError p => "[Errno 17] File exists: '" +:+ p +:+ "'"
  | CalledProcessError c _ =>
      "Command returned non-zero exit status " +:+ Py.str_of_Z c +:+ "."
  | KeyError k => "'" +:+ k +:+ "'"
  | IndexError m => m
  | ValueError m => m
  end.

Inductive result (A : Type) :=
  | Ok (a : A)
  | Raised (e : exn).
Arguments Ok {A} a.
Arguments Raised {A} e.

Definition M (A : Type) : Type := World -> result A * World.

Definition ret {A} (a : A) : M A := fun w => (Ok a, w).
Definition raise {A} (e : exn) : M A := fun w => (Raised e, w).
Definition bind {A B} (m : M A) (k : A -> M B) : M B :=
  fun w =>
    match m w with
    | (Ok a, w') => k a w'
    | (Raised e, w') => (Raised e, w')
    end.

(** [try: m  except Exception as e: h e] *)
Definition try_except {A} (m : M A) (h : exn -> M A) : M A :=
  fun w =>
    match m w with
    | (Ok a, w') => (Ok a, w')
    | (Raised e, w') => h e w'
    end.

Definition gets {A} (f : World -> A) : M A := fun w => (Ok (f w), w).
Definition modify (f : World -> World) : M unit := fun w => (Ok tt, f w).

Definition set_stat (f : gmap string stat_result -> gmap string stat_result) (w : World) : World :=
  mk_world (f (w_stat w)) (w_text w) (w_dirs w) (w_locked w) (w_now w)
    (w_environ w) (w_modes w) (w_spawn w) (w_calls w) (w_copied w) (w_stdout w).
Definition set_text (f : gmap string string -> gmap string string) (w : World) : World :=
  mk_world (w_stat w) (f (w_text w)) (w_dirs w) (w_locked w) (w_now w)
    (w_environ w) (w_modes w) (w_spawn w) (w_calls w) (w_copied w) (w_stdout w).
Definition set_dirs (f : gset string -> gset string) (w : World) : World :=
  mk_world (w_stat w) (w_text w) (f (w_dirs w)) (w_locked w) (w_now w)
    (w_environ w) (w_modes w) (w_spawn w) (w_calls w) (w_copied w) (w_stdout w).
Definition set_environ (f : gmap string string -> gmap string string) (w : World) : World :=
  mk_world (w_stat w) (w_text w) (w_dirs w) (w_locked w) (w_now w)
    (f (w_environ w)) (w_modes w) (w_spawn w) (w_calls w) (w_copied w) (w_stdout w).
Definition set_modes (f : gmap string Z -> gmap string Z) (w : World) : World :=
  mk_world (w_stat w) (w_text w) (w_dirs w) (w_locked w) (w_now w)
    (w_environ w) (f (w_modes w)) (w_spawn w) (w_calls w) (w_copied w) (w_stdout w).
Definition set_calls (f : list call -> list call) (w : World) : World :=
  mk_world (w_stat w) (w_text w) (w_dirs w) (w_locked w) (w_now w)
    (w_environ w) (w_modes w) (w_spawn w) (f (w_calls w)) (w_copied w) (w_stdout w).
Definition set_copied (f : list (string * string) -> list (string * string)) (w : World) : World :=
  mk_world (w_stat w) (w_text w) (w_dirs w) (w_locked w) (w_now w)
    (w_environ w) (w_modes w) (w_spawn w) (w_calls w) (f (w_copied w)) (w_stdout w).
Definition set_stdout (f : list string -> list string) (w : World) : World :=
  mk_world (w_stat w) (w_text w) (w_dirs w) (w_locked w) (w_now w)
    (w_environ w) (w_modes w) (w_spawn w) (w_calls w) (w_copied w) (f (w_stdout w)).

End OS.

Notation "'let!' x ':=' m 'in' k" := (OS.bind m (fun x => k))
  (at level 10, x pattern, m at level 100, k at level 200).
Notation "m '>>' k" := (OS.bind m (fun _ => k))
  (at level 100, k at level 200, right associativity).

Module Sys.
Import OS.

(** [print(s)] *)
Definition print (s : string) : M unit := modify (set_stdout (fun o => o ++ [s])).

(** [datetime.now()] *)
Definition now : M datetime.t := gets w_now.

(** [os.path.exists(p)] *)
Definition exists_ (p : string) : M bool :=
  gets (fun w => bool_decide (is_Some (w_stat w !! p)) || bool_decide (p ∈ w_dirs w)).

(** [os.path.getsize(p)] *)
Definition getsize (p : string) : M Z :=
  fun w =>
    match w_stat w !! p with
    | Some st => (Ok (st_size st), w)
    | None => (Raised (FileNotFoundError p), w)
    end.

(** [datetime.fromtimestamp(os.path.getctime(p))] *)
Definition getctime (p : string) : M datetime.t :=
  fun w =>
    match w_stat w !! p with
    | Some st => (Ok (st_ctime st), w)
    | None => (Raised (FileNotFoundError p), w)
    end.

(** [os.makedirs(d, exist_ok=True)] *)
Definition makedirs (d : string) : M unit :=
  fun w =>
    if bool_decide (d ∈ w_locked w) then (Raised (PermissionError d), w)
    else if bool_decide (is_Some (w_stat w !! d)) then (Raised (FileExistsError d), w)
    else (Ok tt, set_dirs (fun ds => ds ∪ {[d]}) w).

(** [open(p, "r").read()] *)
Definition read_text (p : string) : M string :=
  fun w =>
    match w_text w !! p with
    | Some s => (Ok s, w)
    | None =>
        (Raised (if bool_decide (is_Some (w_stat w !! p))
                 then PermissionError p else FileNotFoundError p), w)
    end.

(** [with open(p, "w") as f: f.write(..) ...]: the file is truncated and
    then holds the chunks written, in order. *)
Definition write_text (p : string) (chunks : list string) : M unit :=
  fun w =>
    if bool_decide (p ∈ w_locked w) || bool_decide (p ∈ w_dirs w)
    then (Raised (PermissionError p), w)
    else
      let s := foldr String.app EmptyString chunks in
      (Ok tt,
       set_stat (insert p (mk_stat (Z.of_nat (String.length s)) (w_now w)))
         (set_text (insert p s) w)).

(** [shutil.copy2(src, dst)]: into [dst], or under the name of [src] inside
    [dst] when that is a directory. *)
Definition copy2 (src dst : string) : M unit :=
  fun w =>
    match w_stat w !! src with
    | None => (Raised (FileNotFoundError src), w)
    | Some st =>
        let target :=
          if bool_decide (dst ∈ w_dirs w)
          then posixpath.join dst [posixpath.basename src] else dst in
        if bool_decide (target ∈ w_locked w) || bool_decide (target ∈ w_dirs w)
        then (Raised (PermissionError target), w)
        else
          (Ok tt,
           set_copied (fun c => c ++ [(src, dst)])
             (set_stat (insert target (mk_stat (st_size st) (w_now w)))
                (set_text (fun t =>
                   match t !! src with
                   | Some s => <[target := s]> t
                   | None => delete target t
                   end) w)))
    end.

(** [os.chmod(p, mode)] *)
Definition chmod (p : string) (mode : Z) : M unit :=
  fun w =>
    if bool_decide (p ∈ w_locked w) then (Raised (PermissionError p), w)
    else (Ok tt, set_modes (insert p mode) w).

(** [os.environ[k] = v] *)
Definition setenv (k v : string) : M unit := modify (set_environ (insert k v)).

(** [subprocess.run(argv, cwd=cwd, check=check, capture_output=True)].
    Only the answer of the program and the fact that it ran are modelled,
    not what the program does to the file system. *)
Definition run (argv : list string) (cwd : string) (check : bool) : M completed :=
  fun w =>
    let c := mk_call argv cwd in
    match w_spawn w (w_calls w) c with
    | None => (Raised (FileNotFoundError (hd EmptyString argv)), w)
    | Some r =>
        let w' := set_calls (fun cs => cs ++ [c]) w in
        if check && negb (returncode r =? 0)
        then (Raised (CalledProcessError (returncode r) (proc_stderr r)), w')
        else (Ok r, w')
    end.

End Sys.

(** ** code/main.py *)

Module main.
Import OS.

(** Supported file extensions for backup. *)
Definition SUPPORTED_EXTENSIONS : gset string :=
  {[ ".txt"; ".docx"; ".doc"; ".pptx"; ".ppt"; ".md";
     ".pdf"; ".xlsx"; ".xls"; ".csv"; ".json"; ".xml" ]}.

Definition SIZE_LIMIT : Z := 25 * 1024 * 1024.

(** The body of [for line in f] in [load_exclude_paths]. *)
Definition exclude_line (excluded : gset string) (line : string) : gset string :=
  let line := Py.strip line in
  if negb (bool_decide (line = EmptyString)) && negb (Py.startswith line "#")
  then excluded ∪ {[ Py.lower line ]}
  else excluded.

Definition load_exclude_paths (exclude_file : string) : M (gset string) :=
  let excluded : gset string := ∅ in
  try_except
    (let! present := Sys.exists_ exclude_file in
     if present : bool then
       let! text := Sys.read_text exclude_file in
       ret (foldl exclude_line excluded (Py.readlines text))
     else ret excluded)
    (fun e =>
       Sys.print ("Error reading exclude file: " +:+ exn_str e) >>
       ret excluded).

(** The [for] loop of [is_path_excluded] over the patterns, in the order
    the set yields them. *)
Fixpoint any_pattern_in (patterns : list string) (file_path_lower : string) : bool :=
  match patterns with
  | [] => false
  | excluded :: rest =>
      if Py.contains excluded file_path_lower then true
      else any_pattern_in rest file_path_lower
  end.

Definition is_path_excluded (file_path : string) (excluded_paths : gset string) : bool :=
  let file_path_lower := Py.lower file_path in
  any_pattern_in (elements excluded_paths) file_path_lower.

Definition get_file_size (file_path : string) : M Z :=
  try_except
    (let! size := Sys.getsize file_path in ret size)
    (fun e => Sys.print ("An error occurred: " +:+ exn_str e) >> ret (-1)).

Definition get_file_extension (file_path : string) : string :=
  Py.lower (snd (posixpath.splitext file_path)).

Definition is_supported_file (file_path : string) : bool :=
  bool_decide (get_file_extension file_path ∈ SUPPORTED_EXTENSIONS).

(** What [os.walk] finds below a directory: the sub-directories with what is
    below them, and the names of the other entries. *)
#[warnings="-register-all"]
Inductive listing :=
  | Listing (subdirs : list (string * listing)) (filenames : list string).

(** [os.walk(top)], top-down.  The generator yields [(root, dirs, filenames)]
    and, when resumed, descends into what the loop body left in [dirs]: the
    body edits that list in place, which is the function [keep] here. *)
Fixpoint os_walk (keep : string -> list string -> list string)
    (top : string) (t : listing) {struct t} : list (string * list string * list string) :=
  match t with
  | Listing subdirs filenames =>
      let dirs := keep top (map fst subdirs) in
      (top, dirs, filenames) ::
      (fix descend (ds : list (string * listing)) :=
         match ds with
         | [] => []
         | (d, sub) :: rest =>
             if bool_decide (d ∈ dirs)
             then os_walk keep (posixpath.join top [d]) sub ++ descend rest
             else descend rest
         end) subdirs
  end.

(** [dirs[:] = [d for d in dirs if not is_path_excluded(os.path.join(root, d),
    excluded_paths)]], the edit the loop of [find_all_files] makes. *)
Definition prune_dirs (excluded_paths : gset string) (root : string)
    (dirs : list string) : list string :=
  filter (fun d => is_path_excluded (posixpath.join root [d]) excluded_paths = false) dirs.

Definition find_all_files (directory : string) (tree : listing)
    (excluded_paths : gset string) : list string :=
  flat_map
    (fun '(root, dirs, filenames) =>
       flat_map
         (fun filename =>
            let file_path := posixpath.join root [filename] in
            if negb (is_path_excluded file_path excluded_paths)
               && is_supported_file file_path
            then [file_path] else [])
         filenames)
    (os_walk (prune_dirs excluded_paths) directory tree).

Definition get_week_number (date : datetime.t) : Z :=
  snd (fst (datetime.isocalendar date)).

(** An element of [excluded_size_files]. *)
Record excluded_file := mk_excluded {
  file : string;
  size_mb : Float2.float2;
  destination : string
}.

(** The list [excluded_size_files] is shared with the caller and appended
    to in place: the function returns it next to its own result. *)
Definition create_backup_hierarchy (backup_root file_path : string)
    (excluded_size_files : list excluded_file)
    : M (option string * list excluded_file) :=
  try_except
    (let! file_size := get_file_size file_path in
     if SIZE_LIMIT <? file_size then
       ret (None,
            excluded_size_files ++
            [ {| file := file_path;
                 size_mb := Float2.round2 file_size (1024 * 1024);
                 destination := "Would be placed in year/month/week hierarchy" |} ])
     else
       let! file_date := Sys.getctime file_path in
       let year_folder := datetime.strftime_Y file_date in
       let month_folder := datetime.strftime_m file_date in
       let week_folder := "W" +:+ Py.zfill 2 (get_week_number file_date) in
       let file_extension := Py.lstrip_chr "." (get_file_extension file_path) in
       let dest_dir :=
         posixpath.join backup_root
           [year_folder; month_folder; week_folder; file_extension] in
       Sys.makedirs dest_dir >>
       let dest_path := posixpath.join dest_dir [posixpath.basename file_path] in
       ret (Some dest_path, excluded_size_files))
    (fun e =>
       Sys.print ("Error creating backup hierarchy for " +:+ file_path +:+ ": " +:+ exn_str e) >>
       ret (None, excluded_size_files)).

(** The chunks [log_excluded_files] writes for one entry, numbered [idx]. *)
Definition log_entry (idx : Z) (file_info : excluded_file) : list string :=
  [ Py.str_of_Z idx +:+ ". File: " +:+ file file_info +:+ "
";
    "   Size: " +:+ Float2.repr (size_mb file_info) +:+ " MB
";
    "   Would be located: Backup folder structure would apply
";
    "
" ].

(** [for idx, file_info in enumerate(excluded_files, idx)] *)
Fixpoint log_entries (idx : Z) (excluded_files : list excluded_file) : list string :=
  match excluded_files with
  | [] => []
  | file_info :: rest => log_entry idx file_info ++ log_entries (idx + 1) rest
  end.

Definition rule : string := Py.repeat_chr "=" 80.

(** The sequence of [f.write] calls of [log_excluded_files]. *)
Definition log_writes (now : datetime.t) (excluded_files : list excluded_file) : list string :=
  [ rule +:+ "
";
    "BACKUP EXCLUDED FILES LOG - " +:+ datetime.strftime_full now +:+ "
";
    rule +:+ "

";
    "The following files were EXCLUDED from backup due to exceeding 25MB size limit:

" ]
  ++ (match excluded_files with
      | [] => [ "No files were excluded.
" ]
      | _ =>
          ("Total excluded files: " +:+ Py.str_of_Z (Z.of_nat (length excluded_files)) +:+ "

")
          :: log_entries 1 excluded_files
      end)
  ++ [ rule +:+ "
";
       "To fix this, consider using git-lfs (Large File Storage) or exclude these files in config.
" ].

Definition log_excluded_files (excluded_files : list excluded_file) (log_file : string) : M unit :=
  try_except
    (let! now := Sys.now in
     Sys.write_text log_file (log_writes now excluded_files) >>
     Sys.print ("Exclusion log written to " +:+ log_file))
    (fun e => Sys.print ("Error writing log file: " +:+ exn_str e)).

(** The body of the loop [for file_path in files_to_backup] of [main]. *)
Definition backup_file (backup_root : string)
    (st : list excluded_file * Z) (file_path : string) : M (list excluded_file * Z) :=
  let '(excluded_size_files, backed_up_count) := st in
  let! (dest_path, excluded_size_files) :=
    create_backup_hierarchy backup_root file_path excluded_size_files in
  match dest_path with
  | Some dest =>
      if Py.falsy dest_path then ret (excluded_size_files, backed_up_count)
      else
        try_except
          (Sys.copy2 file_path dest >>
           Sys.print ("Backed up: " +:+ posixpath.basename file_path) >>
           ret (excluded_size_files, backed_up_count + 1))
          (fun e =>
             Sys.print ("Error backing up " +:+ file_path +:+ ": " +:+ exn_str e) >>
             ret (excluded_size_files, backed_up_count))
  | None => ret (excluded_size_files, backed_up_count)
  end.

Fixpoint backup_loop (backup_root : string) (files_to_backup : list string)
    (st : list excluded_file * Z) : M (list excluded_file * Z) :=
  match files_to_backup with
  | [] => ret st
  | file_path :: rest =>
      let! st' := backup_file backup_root st file_path in
      backup_loop backup_root rest st'
  end.

(** [main], from the empty [excluded_size_files] to the exclusion log. *)
Definition backup_all (backup_root log_file : string) (files_to_backup : list string)
    : M (list excluded_file * Z) :=
  let! (excluded_size_files, backed_up_count) :=
    backup_loop backup_root files_to_backup ([], 0) in
  log_excluded_files excluded_size_files log_file >>
  ret (excluded_size_files, backed_up_count).

End main.

(** ** code/github_uploader.py *)

Module github_uploader.
Import OS.

(** A configuration [dict]: the value of a key is [None] or a string. *)
Abbreviation dict := (gmap string (option string)).

(** [config[key]] *)
Definition getitem (config : dict) (key : string) : M (option string) :=
  match config !! key with
  | Some v => ret v
  | None => raise (KeyError key)
  end.

(** The body of [for line in f] in [load_config]. *)
Definition config_line (config : dict) (line : string) : dict :=
  let line := Py.strip line in
  if negb (bool_decide (line = EmptyString)) && negb (Py.startswith line "#")
  then
    if Py.contains "=" line
    then
      let '(key, value) := Py.split_once "=" line in
      <[ Py.strip key := Some (Py.strip value) ]> config
    else config
  else config.

Definition load_config (config_file : string) : M dict :=
  let config : dict :=
    {[ "GITHUB_REPO_URL" := None;
       "SSH_KEY_PATH" := None;
       "COMMIT_MESSAGE" := Some "Auto backup - {date}" ]} in
  try_except
    (let! present := Sys.exists_ config_file in
     if negb present then
       Sys.print ("Config file not found: " +:+ config_file) >>
       ret config
     else
       let! text := Sys.read_text config_file in
       ret (foldl config_line config (Py.readlines text)))
    (fun e =>
       Sys.print ("Error reading config file: " +:+ exn_str e) >>
       ret config).

Definition setup_ssh_environment (ssh_key_path : string) : M bool :=
  try_except
    (let! present := Sys.exists_ ssh_key_path in
     if negb present then
       Sys.print ("SSH key not found at: " +:+ ssh_key_path) >>
       ret false
     else
       (* os.name is "posix" where posixpath is os.path *)
       Sys.chmod ssh_key_path 384 >>
       Sys.setenv "GIT_SSH_COMMAND" ("ssh -i " +:+ Py.dquote +:+ ssh_key_path +:+ Py.dquote) >>
       Sys.print ("SSH environment configured with key: " +:+ ssh_key_path) >>
       ret true)
    (fun e =>
       Sys.print ("Error setting up SSH environment: " +:+ exn_str e) >>
       ret false).

Definition initialize_git_repo (repo_path repo_url : string) : M bool :=
  try_except
    (let git_dir := posixpath.join repo_path [".git"] in
     let! present := Sys.exists_ git_dir in
     if present : bool then
       Sys.print ("Repository already initialized at " +:+ repo_path) >>
       ret true
     else
       Sys.makedirs repo_path >>
       Sys.run ["git"; "init"] repo_path true >>
       Sys.print ("Initialized git repository at " +:+ repo_path) >>
       Sys.run ["git"; "remote"; "add"; "origin"; repo_url] repo_path true >>
       Sys.print ("Added remote origin: " +:+ repo_url) >>
       ret true)
    (fun e =>
       match e with
       | CalledProcessError _ stderr =>
           Sys.print ("Git error: " +:+ stderr) >> ret false
       | _ =>
           Sys.print ("Error initializing git repo: " +:+ exn_str e) >> ret false
       end).

Definition commit_and_push (repo_path commit_message : string) : M bool :=
  try_except
    (Sys.run ["git"; "config"; "user.email"; "backup@automated.local"] repo_path true >>
     Sys.run ["git"; "config"; "user.name"; "Backup Bot"] repo_path true >>
     Sys.run ["git"; "add"; "."] repo_path true >>
     Sys.print "Staged files for commit" >>
     let! result := Sys.run ["git"; "status"; "--porcelain"] repo_path false in
     if bool_decide (Py.strip (proc_stdout result) = EmptyString) then
       Sys.print "No changes to commit" >>
       ret true
     else
       Sys.run ["git"; "commit"; "-m"; commit_message] repo_path true >>
       Sys.print ("Committed with message: " +:+ commit_message) >>
       Sys.run ["git"; "push"; "-u"; "origin"; "main"] repo_path true >>
       Sys.print "Pushed to GitHub successfully" >>
       ret true)
    (fun e =>
       match e with
       | CalledProcessError _ stderr =>
           let stderr :=
             if bool_decide (stderr = EmptyString) then "Unknown error" else stderr in
           Sys.print ("Git error during commit/push: " +:+ stderr) >> ret false
       | _ =>
           Sys.print ("Error committing and pushing: " +:+ exn_str e) >> ret false
       end).

(** The reading state of [template.format(date=d)]. *)
Inductive fmt_state :=
  | FText                      (* plain text *)
  | FOpen                      (* just after one opening brace *)
  | FField (name : string)     (* inside a field, the name read so far, reversed *)
  | FClose.                    (* just after one closing brace *)

(** [template.format(date=d)] for templates whose replacement fields are
    plain names.  A field with a conversion, a format specification, an
    attribute or an index is read as a name that is not [date]. *)
Fixpoint format_go (st : fmt_state) (template d : string) : result string :=
  match template with
  | EmptyString =>
      match st with
      | FText => Ok EmptyString
      | FOpen => Raised (ValueError "Single '{' encountered in format string")
      | FField _ => Raised (ValueError "expected '}' before end of string")
      | FClose => Raised (ValueError "Single '}' encountered in format string")
      end
  | String c r =>
      match st with
      | FText =>
          if decide (c = "{"%char) then format_go FOpen r d
          else if decide (c = "}"%char) then format_go FClose r d
          else match format_go FText r d with
               | Ok s => Ok (String c s)
               | Raised e => Raised e
               end
      | FOpen =>
          if decide (c = "{"%char) then
            match format_go FText r d with
            | Ok s => Ok (String c s)
            | Raised e => Raised e
            end
          else if decide (c = "}"%char) then
            Raised (IndexError "Replacement index 0 out of range for positional args tuple")
          else format_go (FField (String c EmptyString)) r d
      | FField name =>
          if decide (c = "}"%char) then
            if decide (String.rev name = "date") then
              match format_go FText r d with
              | Ok s => Ok (d +:+ s)
              | Raised e => Raised e
              end
            else Raised (KeyError (String.rev name))
          else if decide (c = "{"%char) then
            Raised (ValueError "unexpected '{' in field name")
          else format_go (FField (String c name)) r d
      | FClose =>
          if decide (c = "}"%char) then
            match format_go FText r d with
            | Ok s => Ok (String c s)
            | Raised e => Raised e
            end
          else Raised (ValueError "Single '}' encountered in format string")
      end
  end.

Definition format_date (template d : string) : M string :=
  fun w => (format_go FText template d, w).

Definition banner : string := Py.repeat_chr "=" 80.

Definition upload_backup_to_github (backup_path config_file : string) : M bool :=
  Sys.print ("
" +:+ banner) >>
  Sys.print "GITHUB UPLOAD PROCESS" >>
  Sys.print (banner +:+ "
") >>
  let! config := load_config config_file in
  let! url := getitem config "GITHUB_REPO_URL" in
  if Py.falsy url then
    Sys.print "ERROR: GITHUB_REPO_URL not set in config file" >>
    ret false
  else
  let! key := getitem config "SSH_KEY_PATH" in
  if Py.falsy key then
    Sys.print "ERROR: SSH_KEY_PATH not set in config file" >>
    ret false
  else
  let! ssh_ok := setup_ssh_environment (default EmptyString key) in
  if negb ssh_ok then ret false else
  let! init_ok := initialize_git_repo backup_path (default EmptyString url) in
  if negb init_ok then ret false else
  let! template := getitem config "COMMIT_MESSAGE" in
  let! now := Sys.now in
  let! commit_message :=
    format_date (default EmptyString template) (datetime.strftime_full now) in
  let! pushed := commit_and_push backup_path commit_message in
  if pushed : bool then
    Sys.print ("
" +:+ banner) >>
    Sys.print "UPLOAD SUCCESSFUL" >>
    Sys.print (banner +:+ "
") >>
    ret true
  else
    Sys.print ("
" +:+ banner) >>
    Sys.print "UPLOAD FAILED" >>
    Sys.print (banner +:+ "
") >>
    ret false.

End github_uploader.

(** ** validate_setup.py *)

Module validate_setup.


End validate_setup.

(** * Specification-side definitions and sample data *)

Module Spec.

(** A line of the exclusion file that contributes a pattern. *)
Definition pattern_line (line : string) : Prop :=
  Py.strip line <> "" /\ Py.startswith (Py.strip line) "#" = false.

(** Does the character occur in the string? *)
Fixpoint has_chr (c : ascii) (s : string) : bool :=
  match s with
  | EmptyString => false
  | String a r => if decide (a = c) then true else has_chr c r
  end.

(** Does the string hold an upper-case ASCII letter? *)
Fixpoint has_upper (s : string) : bool :=
  match s with
  | EmptyString => false
  | String a r => ((65 <=? Py.ord a) && (Py.ord a <=? 90)) || has_upper r
  end.

(** A path segment: not empty and without a separator. *)
Definition is_segment (s : string) : bool :=
  negb (bool_decide (s = EmptyString)) && negb (has_chr "/" s).

(** [f] holds on the [n] integers from [lo] on. *)
Definition holds_on (f : Z -> bool) (lo : Z) (n : nat) : bool :=
  forallb (fun k => f (lo + Z.of_nat k)) (seq 0 n).

(** [n] printed on at least [w] digits is a path segment of [w] characters. *)
Definition digits_segment (w : nat) (n : Z) : bool :=
  bool_decide (String.length (Py.zfill w n) = w) && is_segment (Py.zfill w n).

(** The destination the specification gives a file created at [d]:
    [root/YYYY/MM/W{week:02d}/{extension}/filename], the segments put
    together by [os.path.join]. *)
Definition week_folder (d : datetime.t) : string :=
  "W" +:+ Py.zfill 2 (main.get_week_number d).

Definition extension_folder (file_path : string) : string :=
  Py.lstrip_chr "." (main.get_file_extension file_path).

Definition destination_dir (backup_root file_path : string) (d : datetime.t) : string :=
  posixpath.join backup_root
    [datetime.strftime_Y d; datetime.strftime_m d; week_folder d;
     extension_folder file_path].

Definition expected_destination (backup_root file_path : string) (d : datetime.t) : string :=
  posixpath.join backup_root
    [datetime.strftime_Y d; datetime.strftime_m d; week_folder d;
     extension_folder file_path; posixpath.basename file_path].

(** Every file below [top], whatever the exclusion patterns. *)
Fixpoint all_files (top : string) (t : main.listing) {struct t} : list string :=
  match t with
  | main.Listing subdirs filenames =>
      map (fun filename => posixpath.join top [filename]) filenames ++
      (fix below (ds : list (string * main.listing)) :=
         match ds with
         | [] => []
         | (d, sub) :: rest => all_files (posixpath.join top [d]) sub ++ below rest
         end) subdirs
  end.

(** The names in a listing are file names: not empty, without separator. *)
Fixpoint valid_listing (t : main.listing) {struct t} : bool :=
  match t with
  | main.Listing subdirs filenames =>
      forallb is_segment filenames &&
      (fix names (ds : list (string * main.listing)) :=
         match ds with
         | [] => true
         | (d, sub) :: rest => is_segment d && valid_listing sub && names rest
         end) subdirs
  end.

(** In every directory of the listing the files have distinct names, and
    so have the sub-directories. *)
Fixpoint distinct_listing (t : main.listing) {struct t} : Prop :=
  match t with
  | main.Listing subdirs filenames =>
      NoDup filenames /\ NoDup (map fst subdirs) /\
      (fix below (ds : list (string * main.listing)) : Prop :=
         match ds with
         | [] => True
         | (d, sub) :: rest => distinct_listing sub /\ below rest
         end) subdirs
  end.

(** What [os.path.join] puts between a path and a name. *)
Definition sep_for (path : string) : string :=
  if decide (path = EmptyString) then EmptyString
  else if Py.endswith path posixpath.sep then EmptyString
  else "/".

(** The files [find_all_files] keeps among the entries of one directory. *)
Definition kept_files (excluded_paths : gset string) (root : string)
    (filenames : list string) : list string :=
  flat_map
    (fun filename =>
       let file_path := posixpath.join root [filename] in
       if negb (main.is_path_excluded file_path excluded_paths)
          && main.is_supported_file file_path
       then [file_path] else [])
    filenames.

(** The entry recorded for a file of [size] bytes over the limit. *)
Definition exclusion_entry (file_path : string) (size : Z) : main.excluded_file :=
  main.mk_excluded file_path (Float2.round2 size (1024 * 1024))
    "Would be placed in year/month/week hierarchy".

(** The lines by which the backup loop reports an I/O error. *)
Definition is_error_line (s : string) : bool :=
  Py.startswith s "An error occurred: "
  || Py.startswith s "Error creating backup hierarchy for "
  || Py.startswith s "Error backing up ".

(** What one call does, whatever the world: an entry for an oversized
    file, a destination, or an error that is reported. *)
Inductive placement (w : OS.World) (backup_root file_path : string)
    (excluded_size_files : list main.excluded_file)
    : option string -> list main.excluded_file -> OS.World -> Prop :=
  | placement_excluded st :
      OS.w_stat w !! file_path = Some st ->
      main.SIZE_LIMIT < OS.st_size st ->
      placement w backup_root file_path excluded_size_files
        None (excluded_size_files ++ [exclusion_entry file_path (OS.st_size st)]) w
  | placement_destination st :
      OS.w_stat w !! file_path = Some st ->
      OS.st_size st <= main.SIZE_LIMIT ->
      placement w backup_root file_path excluded_size_files
        (Some (expected_destination backup_root file_path (OS.st_ctime st)))
        excluded_size_files
        (OS.set_dirs (fun ds => ds ∪ {[destination_dir backup_root file_path (OS.st_ctime st)]}) w)
  | placement_error msgs :
      msgs <> [] ->
      Forall (fun s => is_error_line s = true) msgs ->
      placement w backup_root file_path excluded_size_files
        None excluded_size_files (OS.set_stdout (fun o => o ++ msgs) w).

(** What one round of the backup loop adds to the exclusion report, to
    the copies made and to the output. *)
Inductive file_outcome (backup_root file_path : string)
    : list main.excluded_file -> list (string * string) -> list string -> Prop :=
  | outcome_excluded size :
      main.SIZE_LIMIT < size ->
      file_outcome backup_root file_path [exclusion_entry file_path size] [] []
  | outcome_copied d :
      file_outcome backup_root file_path
        [] [(file_path, expected_destination backup_root file_path d)]
        ["Backed up: " +:+ posixpath.basename file_path]
  | outcome_error msgs :
      msgs <> [] ->
      Forall (fun s => is_error_line s = true) msgs ->
      file_outcome backup_root file_path [] [] msgs.

(** What a run of the backup loop over [files] adds: nothing is both
    copied and reported, every entry is over the limit, every copy goes to
    a computed destination, and without an error line the entries and the
    copies together account for each file. *)
Record loop_summary (backup_root : string) (files : list string)
    (ex : list main.excluded_file) (cp : list (string * string))
    (out : list string) : Prop := {
  summary_at_most_once : map main.file ex ++ map fst cp ⊆+ files;
  summary_all :
    Forall (fun s => is_error_line s = false) out ->
    map main.file ex ++ map fst cp ≡ₚ files;
  summary_sizes : Forall (fun e => 2500 <= main.size_mb e) ex;
  summary_destinations :
    Forall (fun c => exists d, c.2 = expected_destination backup_root c.1 d) cp
}.

(** The commands [commit_and_push] runs before it looks at the status. *)
Definition staging_calls (repo_path : string) : list OS.call :=
  [ OS.mk_call ["git"; "config"; "user.email"; "backup@automated.local"] repo_path;
    OS.mk_call ["git"; "config"; "user.name"; "Backup Bot"] repo_path;
    OS.mk_call ["git"; "add"; "."] repo_path ].

Definition status_call (repo_path : string) : OS.call :=
  OS.mk_call ["git"; "status"; "--porcelain"] repo_path.

(** Is the command a [git commit] or a [git push]? *)
Definition is_commit_or_push (c : OS.call) : bool :=
  match OS.argv c with
  | git :: verb :: _ =>
      bool_decide (git = "git")
      && (bool_decide (verb = "commit") || bool_decide (verb = "push"))
  | _ => false
  end.

(** The configuration [load_config] reads in a world. *)
Definition config_read (w : OS.World) (config_file : string)
    : gmap string (option string) :=
  match fst (github_uploader.load_config config_file w) with
  | OS.Ok config => config
  | OS.Raised _ => ∅
  end.




(** The worlds that differ from [w] in the output only. *)
Definition only_printed (w w' : OS.World) : Prop :=
  w' = OS.set_stdout (fun _ => OS.w_stdout w') w.

End Spec.

(** Sample data: the examples of the specification. *)
Module Sample.

Definition created : datetime.t := datetime.mk 2024 1 5 10 30 0.

Definition world : OS.World :=
  OS.mk_world
    {[ "src/notes.md" := OS.mk_stat 10240 created;
       "src/Report.PDF" := OS.mk_stat 31457280 (datetime.mk 2024 3 12 8 0 0);
       "exlude_paths.txt" := OS.mk_stat 40 created ]}
    {[ "exlude_paths.txt" := "# folders to skip
Node_Modules

  temp
" ]}
    ∅ ∅ (datetime.mk 2024 3 13 9 5 0) ∅ ∅ (fun _ _ => None) [] [] [].

Definition files : list string := ["src/notes.md"; "src/Report.PDF"].

(** A git that succeeds and reports a clean working tree. *)
Definition clean_git (history : list OS.call) (c : OS.call) : option OS.completed :=
  Some (OS.mk_completed 0 EmptyString EmptyString).

Definition clean_repo : OS.World :=
  OS.mk_world ∅ ∅ ∅ ∅ created ∅ ∅ clean_git [] [] [].




(** A git that succeeds and reports one modified file. *)
Definition dirty_git (history : list OS.call) (c : OS.call) : option OS.completed :=
  Some (OS.mk_completed 0
          (if bool_decide (OS.argv c = ["git"; "status"; "--porcelain"])
           then " M 2024/01/W01/md/notes.md" else EmptyString)
          EmptyString).

Definition dirty_repo : OS.World :=
  OS.mk_world ∅ ∅ ∅ ∅ created ∅ ∅ dirty_git [] [] [].

(** A configuration that is filled in, with a key file that is missing. *)
Definition no_key_world : OS.World :=
  OS.mk_world
    {[ "backup_config.txt" := OS.mk_stat 80 created ]}
    {[ "backup_config.txt" := "GITHUB_REPO_URL=git@github.com:me/backups.git
SSH_KEY_PATH=/home/me/.ssh/id_rsa
" ]}
    ∅ ∅ created ∅ ∅ clean_git [] [] [].

Definition tree : main.listing :=
  main.Listing
    [ ("node_modules", main.Listing [] ["readme.md"]);
      ("Docs", main.Listing [("Temp", main.Listing [] ["x.TXT"])]
                 ["a.PDF"; "b.exe"; ".md"]) ]
    ["notes.md"; "pic.png"].

End Sample.
(** * Properties *)

(** ** Strings *)

Section strings.

Lemma str_app_cons (c : ascii) (s t : string) : String c s +:+ t = String c (s +:+ t).
Proof. reflexivity. Qed.

Lemma str_app_nil_l (t : string) : "" +:+ t = t.
Proof. reflexivity. Qed.

Lemma str_app_nil_r (s : string) : s +:+ "" = s.
Proof. induction s as [|c s IH]; [done|]. by rewrite str_app_cons, IH. Qed.

Lemma app_assoc_str (a b c : string) : (a +:+ b) +:+ c = a +:+ (b +:+ c).
Proof. induction a as [|x a IH]; [done|]. by rewrite !str_app_cons, IH. Qed.

Lemma lower_app (a b : string) : Py.lower (a +:+ b) = Py.lower a +:+ Py.lower b.
Proof. induction a as [|x a IH]; [done|]. rewrite str_app_cons. cbn. by rewrite IH. Qed.

Lemma startswith_app (s p t : string) :
  Py.startswith s p = true -> Py.startswith (s +:+ t) p = true.
Proof.
  revert s. induction p as [|a p IH]; intros s H; [by destruct (s +:+ t)|].
  destruct s as [|b s]; [done|]. rewrite str_app_cons. cbn in *.
  destruct (decide (a = b)); [by apply IH | done].
Qed.

Lemma startswith_self_app (p t : string) : Py.startswith (p +:+ t) p = true.
Proof.
  induction p as [|a p IH]; [by destruct t|]. rewrite str_app_cons. cbn.
  destruct (decide (a = a)); [done | congruence].
Qed.

Lemma contains_cons (sub : string) (c : ascii) (r : string) :
  Py.contains sub (String c r) = Py.startswith (String c r) sub || Py.contains sub r.
Proof. reflexivity. Qed.

Lemma contains_app_r (sub s t : string) :
  Py.contains sub s = true -> Py.contains sub (s +:+ t) = true.
Proof.
  induction s as [|c s IH]; intros H.
  - cbn in H. rewrite orb_false_r in H. destruct sub; [|done].
    destruct t; reflexivity.
  - rewrite contains_cons in H. apply orb_true_iff in H as [H|H].
    + rewrite str_app_cons, contains_cons, <- str_app_cons.
      by rewrite (startswith_app _ _ _ H).
    + rewrite str_app_cons, contains_cons, (IH H). apply orb_true_r.
Qed.

Lemma contains_app_l (sub s t : string) :
  Py.contains sub t = true -> Py.contains sub (s +:+ t) = true.
Proof.
  intros H. induction s as [|c s IH]; [done|].
  rewrite str_app_cons, contains_cons, IH. apply orb_true_r.
Qed.

End strings.

(** ** Exclusion patterns *)

Section exclusion.
Import main.

Lemma any_pattern_in_true (patterns : list string) (p : string) :
  any_pattern_in patterns p = true <->
  exists e, e ∈ patterns /\ Py.contains e p = true.
Proof.
  induction patterns as [|e rest IH]; cbn.
  - split; [done|]. intros (e & He & _). by apply elem_of_nil in He.
  - destruct (Py.contains e p) eqn:E.
    + split; [|done]. intros _. exists e. split; [left|done].
    + rewrite IH. split.
      * intros (e' & He' & Hc). exists e'. split; [by right|done].
      * intros (e' & He' & Hc). apply elem_of_cons in He' as [->|He'].
        -- congruence.
        -- by exists e'.
Qed.

(** A path is excluded exactly when some pattern of the set occurs in its
    lower-cased form. *)
Lemma is_path_excluded_true (file_path : string) (excluded_paths : gset string) :
  is_path_excluded file_path excluded_paths = true <->
  exists e, e ∈ excluded_paths /\ Py.contains e (Py.lower file_path) = true.
Proof.
  unfold is_path_excluded. rewrite any_pattern_in_true.
  by setoid_rewrite elem_of_elements.
Qed.

Lemma is_path_excluded_false (file_path : string) (excluded_paths : gset string) :
  is_path_excluded file_path excluded_paths = false <->
  forall e, e ∈ excluded_paths -> Py.contains e (Py.lower file_path) = false.
Proof.
  rewrite <- not_true_iff_false, is_path_excluded_true. split.
  - intros H e He. destruct (Py.contains e _) eqn:E; [|done].
    exfalso. apply H. by exists e.
  - intros H (e & He & Hc). rewrite (H e He) in Hc. done.
Qed.

(** A path below an excluded path is excluded. *)
Lemma is_path_excluded_app (p q : string) (excluded_paths : gset string) :
  is_path_excluded p excluded_paths = true ->
  is_path_excluded (p +:+ q) excluded_paths = true.
Proof.
  rewrite !is_path_excluded_true. intros (e & He & Hc).
  exists e. split; [done|]. rewrite lower_app. by apply contains_app_r.
Qed.

(** C9: no path matches the empty pattern set, and a path excluded by a set
    of patterns is excluded by every larger set. *)
Theorem is_path_excluded_monotone (file_path : string) (S T : gset string) :
  is_path_excluded file_path ∅ = false
  /\ (S ⊆ T ->
      is_path_excluded file_path S = true ->
      is_path_excluded file_path T = true).
Proof.
  split.
  - apply is_path_excluded_false. intros e He. set_solver.
  - intros HST. rewrite !is_path_excluded_true.
    intros (e & He & Hc). exists e. split; [set_solver | done].
Qed.

Lemma is_path_excluded_monotone_witness :
  is_path_excluded "project/Node_Modules/pkg/readme.md" {[ "node_modules"; "temp" ]} = true.
Proof.
  apply (proj2 (is_path_excluded_monotone "project/Node_Modules/pkg/readme.md"
                  {[ "node_modules" ]} {[ "node_modules"; "temp" ]})).
  - set_solver.
  - vm_compute. reflexivity.
Defined.

End exclusion.

(** ** The exclusion-pattern loader *)

Section loader.
Import OS main Spec.

Lemma exclude_line_elem (excluded : gset string) (line x : string) :
  x ∈ exclude_line excluded line <->
  x ∈ excluded \/ (pattern_line line /\ x = Py.lower (Py.strip line)).
Proof.
  unfold exclude_line, pattern_line.
  destruct (bool_decide_reflect (Py.strip line = "")) as [E|E];
    destruct (Py.startswith (Py.strip line) "#") eqn:S; cbn [negb andb].
  - split; [by left|]. intros [H|[[H _] _]]; done.
  - split; [by left|]. intros [H|[[H _] _]]; done.
  - split; [by left|]. intros [H|[[_ H] _]]; done.
  - idtac.
    + rewrite elem_of_union, elem_of_singleton. split.
      * intros [H|H]; [by left | by right].
      * intros [H|[_ H]]; [by left | by right].
Qed.

Lemma foldl_exclude_line_elem (lines : list string) (excluded : gset string) (x : string) :
  x ∈ foldl exclude_line excluded lines <->
  x ∈ excluded \/
  exists line, line ∈ lines /\ pattern_line line /\ x = Py.lower (Py.strip line).
Proof.
  revert excluded. induction lines as [|l lines IH]; intros excluded; cbn.
  - split; [by left|]. intros [H|(line & H & _)]; [done|]. by apply elem_of_nil in H.
  - rewrite IH, exclude_line_elem. split.
    + intros [[H|[Hp ->]]|(line & Hin & Hp & ->)].
      * by left.
      * right. exists l. split; [left|done].
      * right. exists line. split; [by right|done].
    + intros [H|(line & Hin & Hp & ->)].
      * by left; left.
      * apply elem_of_cons in Hin as [->|Hin].
        -- left. by right.
        -- right. by exists line.
Qed.

(** C8: the loader returns the lower-cased, trimmed lines of the file that
    are neither blank nor comments; a missing file gives the empty set; the
    loader never raises. *)
Theorem load_exclude_paths_spec (w : World) (exclude_file : string) :
  (forall text,
      is_Some (w_stat w !! exclude_file) ->
      w_text w !! exclude_file = Some text ->
      exists excluded,
        load_exclude_paths exclude_file w = (Ok excluded, w)
        /\ forall x, x ∈ excluded <->
             exists line, line ∈ Py.readlines text
               /\ Py.strip line <> "" /\ Py.startswith (Py.strip line) "#" = false
               /\ x = Py.lower (Py.strip line))
  /\ (w_stat w !! exclude_file = None -> exclude_file ∉ w_dirs w ->
      load_exclude_paths exclude_file w = (Ok ∅, w))
  /\ (exists excluded w', load_exclude_paths exclude_file w = (Ok excluded, w')).
Proof.
  unfold load_exclude_paths, try_except, bind, Sys.exists_, gets, Sys.read_text, ret.
  split; [|split].
  - intros text Hst Htx.
    rewrite bool_decide_eq_true_2 by done. cbn. rewrite Htx.
    eexists. split; [reflexivity|]. intros x.
    rewrite foldl_exclude_line_elem. split.
    + intros [H|(line & H1 & [H2 H3] & H4)]; [set_solver|]. by exists line.
    + intros (line & H1 & H2 & H3 & H4). right. by exists line.
  - intros Hst Hd. rewrite Hst.
    rewrite bool_decide_eq_false_2 by (intros [? ?]; done).
    rewrite bool_decide_eq_false_2 by done. reflexivity.
  - destruct (bool_decide (is_Some (w_stat w !! exclude_file))
              || bool_decide (exclude_file ∈ w_dirs w)); [|by eauto].
    destruct (w_text w !! exclude_file); cbn; eauto.
Qed.

End loader.

(** ** Placement of one file *)

Section placement.
Import OS main Spec.

Lemma get_file_size_readable (w : World) (file_path : string) (st : stat_result) :
  w_stat w !! file_path = Some st ->
  get_file_size file_path w = (Ok (st_size st), w).
Proof.
  intros H. unfold get_file_size, try_except, bind, Sys.getsize, ret. by rewrite H.
Qed.

Lemma get_file_size_unreadable (w : World) (file_path : string) :
  w_stat w !! file_path = None ->
  get_file_size file_path w =
    (Ok (-1),
     set_stdout (fun o => o ++ ["An error occurred: " +:+ exn_str (FileNotFoundError file_path)]) w).
Proof.
  intros H. unfold get_file_size, try_except, bind, Sys.getsize, ret. by rewrite H.
Qed.

(** The quotient is rounded to the nearest hundredth. *)
Lemma round2_nearest (n d : Z) :
  0 < d -> Z.abs (Float2.round2 n d * d - 100 * n) * 2 <= d.
Proof.
  intros Hd. unfold Float2.round2.
  pose proof (Z.div_mod (100 * n) d ltac:(lia)) as E.
  pose proof (Z.mod_pos_bound (100 * n) d Hd) as B.
  set (q := 100 * n / d) in *. set (r := (100 * n) mod d) in *.
  destruct (Z.ltb_spec (2 * r) d); [nia|].
  destruct (Z.ltb_spec d (2 * r)); [nia|].
  destruct (Z.even q); nia.
Qed.

Lemma round2_monotone (n m d : Z) :
  0 < d -> n <= m -> Float2.round2 n d <= Float2.round2 m d.
Proof.
  intros Hd Hnm.
  pose proof (round2_nearest n d Hd). pose proof (round2_nearest m d Hd).
  destruct (Z.le_gt_cases (Float2.round2 n d) (Float2.round2 m d)) as [|Hgt]; [done|].
  exfalso.
  assert (Float2.round2 m d + 1 <= Float2.round2 n d) by lia.
  assert (n = m) as -> by nia. lia.
Qed.

Lemma create_backup_hierarchy_oversized (w : World) (backup_root file_path : string)
    (excluded_size_files : list excluded_file) (st : stat_result) :
  w_stat w !! file_path = Some st ->
  SIZE_LIMIT < st_size st ->
  create_backup_hierarchy backup_root file_path excluded_size_files w =
    (Ok (None, excluded_size_files ++ [exclusion_entry file_path (st_size st)]), w).
Proof.
  intros Hst Hsz. unfold create_backup_hierarchy, try_except, bind.
  rewrite (get_file_size_readable _ _ _ Hst).
  destruct (Z.ltb_spec SIZE_LIMIT (st_size st)); [reflexivity | lia].
Qed.

Lemma create_backup_hierarchy_placed (w : World) (backup_root file_path : string)
    (excluded_size_files : list excluded_file) (st : stat_result) :
  w_stat w !! file_path = Some st ->
  st_size st <= SIZE_LIMIT ->
  let dest_dir := destination_dir backup_root file_path (st_ctime st) in
  dest_dir ∉ w_locked w ->
  w_stat w !! dest_dir = None ->
  create_backup_hierarchy backup_root file_path excluded_size_files w =
    (Ok (Some (expected_destination backup_root file_path (st_ctime st)),
         excluded_size_files),
     set_dirs (fun ds => ds ∪ {[dest_dir]}) w).
Proof.
  intros Hst Hsz dest_dir Hl Hf.
  unfold create_backup_hierarchy, try_except, bind.
  rewrite (get_file_size_readable _ _ _ Hst).
  destruct (Z.ltb_spec SIZE_LIMIT (st_size st)); [lia|].
  unfold Sys.getctime. rewrite Hst. unfold Sys.makedirs.
  fold (week_folder (st_ctime st)). fold (extension_folder file_path).
  fold (destination_dir backup_root file_path (st_ctime st)). fold dest_dir.
  rewrite bool_decide_eq_false_2 by done.
  rewrite bool_decide_eq_false_2 by (rewrite Hf; intros [? ?]; done).
  reflexivity.
Qed.

Lemma create_backup_hierarchy_placement (w : World) (backup_root file_path : string)
    (excluded_size_files : list excluded_file) :
  exists dest excluded' w',
    create_backup_hierarchy backup_root file_path excluded_size_files w =
      (Ok (dest, excluded'), w')
    /\ placement w backup_root file_path excluded_size_files dest excluded' w'.
Proof.
  destruct (w_stat w !! file_path) as [st|] eqn:Hst.
  - destruct (Z.lt_ge_cases SIZE_LIMIT (st_size st)) as [Hsz|Hsz].
    + do 3 eexists. split; [by apply create_backup_hierarchy_oversized|].
      by econstructor.
    + set (dest_dir := destination_dir backup_root file_path (st_ctime st)).
      destruct (decide (dest_dir ∈ w_locked w)) as [Hl|Hl];
        [|destruct (w_stat w !! dest_dir) as [st'|] eqn:Hf].
      3: { do 3 eexists. split; [by apply create_backup_hierarchy_placed|].
           by econstructor. }
      all: unfold create_backup_hierarchy, try_except, bind;
        rewrite (get_file_size_readable _ _ _ Hst);
        destruct (Z.ltb_spec SIZE_LIMIT (st_size st)); [lia|];
        unfold Sys.getctime; rewrite Hst; unfold Sys.makedirs;
        fold (week_folder (st_ctime st)); fold (extension_folder file_path);
        fold (destination_dir backup_root file_path (st_ctime st)); fold dest_dir.
      * rewrite bool_decide_eq_true_2 by done.
        do 3 eexists. split; [reflexivity|].
        apply (placement_error w backup_root file_path excluded_size_files
                 ["Error creating backup hierarchy for " +:+ file_path +:+ ": "
                    +:+ exn_str (PermissionError dest_dir)]); [done|].
        by repeat constructor.
      * rewrite bool_decide_eq_false_2 by done.
        rewrite bool_decide_eq_true_2 by (rewrite Hf; eauto).
        do 3 eexists. split; [reflexivity|].
        apply (placement_error w backup_root file_path excluded_size_files
                 ["Error creating backup hierarchy for " +:+ file_path +:+ ": "
                    +:+ exn_str (FileExistsError dest_dir)]); [done|].
        by repeat constructor.
  - unfold create_backup_hierarchy, try_except, bind.
    rewrite (get_file_size_unreadable _ _ Hst).
    destruct (Z.ltb_spec SIZE_LIMIT (-1)); [unfold SIZE_LIMIT in *; lia|].
    unfold Sys.getctime. cbn. rewrite Hst.
    do 3 eexists. split; [reflexivity|].
    match goal with |- placement _ _ _ _ _ _ ?w' =>
      replace w' with
        (set_stdout (fun o => o ++
           ["An error occurred: " +:+ exn_str (FileNotFoundError file_path);
            "Error creating backup hierarchy for " +:+ file_path +:+ ": "
              +:+ exn_str (FileNotFoundError file_path)]) w)
    end.
    + apply placement_error; [done|]. by repeat constructor.
    + unfold set_stdout, Sys.print, modify. cbn. by rewrite <- app_assoc.
Qed.

End placement.

(** ** The backup loop *)

Section backup_loop.
Import OS main Spec.

Lemma str_app_eq_empty (a b : string) : a +:+ b = "" -> a = "" /\ b = "".
Proof. destruct a; [done|]. rewrite str_app_cons. done. Qed.

Lemma startswith_nonempty (b p : string) :
  p <> "" -> Py.startswith b p = true -> b <> "".
Proof. destruct p; [done|]. by destruct b. Qed.

Lemma join_step_nonempty (path b : string) :
  path <> "" \/ b <> "" -> posixpath.join_step path b <> "".
Proof.
  intros H. unfold posixpath.join_step.
  destruct (Py.startswith b posixpath.sep) eqn:E.
  { by apply (startswith_nonempty b posixpath.sep). }
  destruct (decide (path = "")) as [->|Hp].
  { rewrite str_app_nil_l. by destruct H. }
  destruct (Py.endswith path posixpath.sep);
    intros [? _]%str_app_eq_empty; done.
Qed.

Lemma zfill_nonempty (w : nat) (n : Z) : (0 < w)%nat -> Py.zfill w n <> "".
Proof.
  intros Hw. unfold Py.zfill.
  destruct (Py.str_of_Z n) as [|c s] eqn:E.
  - destruct w; [lia|]. done.
  - intros [_ ?]%str_app_eq_empty. done.
Qed.

(** A computed destination is never the empty string, so the test
    [if dest_path:] of the loop only asks whether there is one. *)
Lemma expected_destination_nonempty (backup_root file_path : string) (d : datetime.t) :
  expected_destination backup_root file_path d <> "".
Proof.
  unfold expected_destination, posixpath.join. cbn [foldl].
  do 4 (apply join_step_nonempty; left).
  apply join_step_nonempty. right. apply zfill_nonempty. lia.
Qed.

Lemma backup_file_outcome (w : World) (backup_root file_path : string)
    (excluded_size_files : list excluded_file) (backed_up_count : Z) :
  exists ex cp out w',
    backup_file backup_root (excluded_size_files, backed_up_count) file_path w =
      (Ok (excluded_size_files ++ ex, backed_up_count + Z.of_nat (length cp)), w')
    /\ w_copied w' = w_copied w ++ cp
    /\ w_stdout w' = w_stdout w ++ out
    /\ file_outcome backup_root file_path ex cp out.
Proof.
  destruct (create_backup_hierarchy_placement w backup_root file_path excluded_size_files)
    as (dest & excluded' & w1 & Hrun & Hp).
  unfold backup_file, bind. rewrite Hrun.
  destruct Hp as [st Hst Hsz | st Hst Hsz | msgs Hne Hmsgs].
  - exists [exclusion_entry file_path (st_size st)], [], [], w.
    rewrite Z.add_0_r, !app_nil_r. repeat split. by constructor.
  - set (dest := expected_destination backup_root file_path (st_ctime st)).
    set (w1 := set_dirs _ w).
    assert (Py.falsy (Some dest) = false) as ->.
    { unfold Py.falsy. destruct (decide (dest = "")) as [E|]; [|done].
      by apply expected_destination_nonempty in E. }
    unfold try_except, bind, Sys.copy2.
    change (w_stat w1) with (w_stat w). rewrite Hst.
    match goal with |- context [if ?b then (Raised ?e, _) else _] =>
      destruct b; [set (err := e)|] end.
    + exists [], [],
        ["Error backing up " +:+ file_path +:+ ": " +:+ exn_str err], 
        (set_stdout (fun o => o ++
           ["Error backing up " +:+ file_path +:+ ": " +:+ exn_str err]) w1).
      rewrite Z.add_0_r, !app_nil_r. repeat split.
      apply outcome_error; [done|]. by repeat constructor.
    + eexists [], [(file_path, dest)], _, _.
      rewrite app_nil_r. split; [reflexivity|]. repeat split.
      apply outcome_copied.
  - exists [], [], msgs, (set_stdout (fun o => o ++ msgs) w).
    rewrite Z.add_0_r, !app_nil_r. repeat split. by constructor.
Qed.

Lemma oversized_entry_size (file_path : string) (size : Z) :
  SIZE_LIMIT < size -> 2500 <= size_mb (exclusion_entry file_path size).
Proof.
  intros H. cbn.
  change 2500 with (Float2.round2 SIZE_LIMIT (1024 * 1024)).
  apply round2_monotone; lia.
Qed.

Lemma backup_loop_summary (backup_root : string) (files_to_backup : list string) :
  forall (w : World) (excluded_size_files : list excluded_file) (backed_up_count : Z),
  exists ex cp out w',
    backup_loop backup_root files_to_backup (excluded_size_files, backed_up_count) w =
      (Ok (excluded_size_files ++ ex, backed_up_count + Z.of_nat (length cp)), w')
    /\ w_copied w' = w_copied w ++ cp
    /\ w_stdout w' = w_stdout w ++ out
    /\ loop_summary backup_root files_to_backup ex cp out.
Proof.
  induction files_to_backup as [|p rest IH]; intros w excl n.
  - exists [], [], [], w. cbn. rewrite Z.add_0_r, !app_nil_r.
    repeat split; by constructor.
  - destruct (backup_file_outcome w backup_root p excl n)
      as (ex1 & cp1 & out1 & w1 & Hrun1 & Hcp1 & Hout1 & Hshape).
    destruct (IH w1 (excl ++ ex1) (n + Z.of_nat (length cp1)))
      as (ex2 & cp2 & out2 & w2 & Hrun2 & Hcp2 & Hout2 & [Hsub Hall Hsz Hdest]).
    exists (ex1 ++ ex2), (cp1 ++ cp2), (out1 ++ out2), w2.
    cbn [backup_loop]. unfold bind at 1. rewrite Hrun1, Hrun2.
    rewrite Hcp2, Hcp1, Hout2, Hout1, !app_assoc, length_app, Nat2Z.inj_add, Z.add_assoc.
    repeat split; try reflexivity.
    + destruct Hshape; cbn.
      * by apply submseteq_skip.
      * rewrite <- Permutation_middle. by apply submseteq_skip.
      * by apply submseteq_cons.
    + intros [Hn1 Hn2]%Forall_app. destruct Hshape as [| |msgs Hne Hmsgs]; cbn.
      * f_equiv. by apply Hall.
      * rewrite <- Permutation_middle. f_equiv. by apply Hall.
      * destruct msgs as [|m msgs]; [done|].
        apply Forall_cons in Hn1 as [Hm _]. apply Forall_cons in Hmsgs as [Hm' _].
        congruence.
    + apply Forall_app. split; [|done].
      destruct Hshape; repeat constructor. by apply oversized_entry_size.
    + apply Forall_app. split; [|done].
      destruct Hshape; repeat constructor. by eexists.
Qed.

End backup_loop.

(** ** Size limit, exclusion report and the loop invariant *)

Section size_limit.
Import OS main Spec.

(** C1: a file over 26,214,400 bytes gets no destination, is not copied,
    and adds exactly one entry with its path and its size in MB rounded to
    the nearest hundredth; a file of at most that size adds no entry. *)
Theorem oversized_file_excluded (w : World) (backup_root file_path : string)
    (excluded_size_files : list excluded_file) (backed_up_count : Z)
    (st : stat_result) :
  w_stat w !! file_path = Some st ->
  SIZE_LIMIT = 26214400
  /\ (26214400 < st_size st ->
      exists entry,
        create_backup_hierarchy backup_root file_path excluded_size_files w =
          (Ok (None, excluded_size_files ++ [entry]), w)
        /\ file entry = file_path
        /\ Z.abs (size_mb entry * 1048576 - 100 * st_size st) * 2 <= 1048576
        /\ backup_file backup_root (excluded_size_files, backed_up_count) file_path w =
             (Ok (excluded_size_files ++ [entry], backed_up_count), w))
  /\ (st_size st <= 26214400 ->
      exists dest w',
        create_backup_hierarchy backup_root file_path excluded_size_files w =
          (Ok (dest, excluded_size_files), w')).
Proof.
  intros Hst. split; [reflexivity|]. split.
  - intros Hsz. exists (exclusion_entry file_path (st_size st)).
    assert (create_backup_hierarchy backup_root file_path excluded_size_files w =
            (Ok (None, excluded_size_files ++ [exclusion_entry file_path (st_size st)]), w))
      as Hrun by (apply create_backup_hierarchy_oversized; [done | unfold SIZE_LIMIT; lia]).
    repeat split; [done| |].
    + apply (round2_nearest (st_size st) 1048576). lia.
    + unfold backup_file, bind. by rewrite Hrun.
  - intros Hsz.
    destruct (create_backup_hierarchy_placement w backup_root file_path excluded_size_files)
      as (dest & excluded' & w' & Hrun & Hp).
    exists dest, w'. rewrite Hrun.
    destruct Hp as [st' Hst' Hsz' | |]; [|done..].
    rewrite Hst in Hst'. injection Hst' as <-. unfold SIZE_LIMIT in Hsz'. lia.
Qed.

Lemma oversized_file_excluded_witness :
  exists entry,
    create_backup_hierarchy "backup_root" "src/Report.PDF" [] Sample.world =
      (Ok (None, [] ++ [entry]), Sample.world)
    /\ file entry = "src/Report.PDF"
    /\ Z.abs (size_mb entry * 1048576 - 100 * 31457280) * 2 <= 1048576
    /\ backup_file "backup_root" ([], 0) "src/Report.PDF" Sample.world =
         (Ok ([] ++ [entry], 0), Sample.world).
Proof.
  apply (oversized_file_excluded Sample.world "backup_root" "src/Report.PDF" [] 0
           (mk_stat 31457280 (datetime.mk 2024 3 12 8 0 0))).
  - vm_compute. reflexivity.
  - cbn. lia.
Defined.

(** C10: a file whose size cannot be read measures -1, which is not over
    the limit, so no entry is recorded for it; every entry of the report
    has a size that is not negative. *)
Theorem unreadable_size_not_excluded (w : World) (backup_root file_path : string)
    (excluded_size_files : list excluded_file) (files_to_backup : list string) :
  (w_stat w !! file_path = None ->
     fst (get_file_size file_path w) = Ok (-1)
     /\ (SIZE_LIMIT <? -1) = false
     /\ exists w',
          create_backup_hierarchy backup_root file_path excluded_size_files w =
            (Ok (None, excluded_size_files), w'))
  /\ (exists excluded n w',
        backup_loop backup_root files_to_backup ([], 0) w = (Ok (excluded, n), w')
        /\ Forall (fun e => 0 <= size_mb e) excluded).
Proof.
  split.
  - intros Hst. rewrite (get_file_size_unreadable _ _ Hst).
    split; [done|]. split; [done|].
    destruct (create_backup_hierarchy_placement w backup_root file_path excluded_size_files)
      as (dest & excluded' & w' & Hrun & Hp).
    exists w'. rewrite Hrun.
    destruct Hp as [st' Hst' _ | st' Hst' _ |]; [congruence..|done].
  - destruct (backup_loop_summary backup_root files_to_backup w [] 0)
      as (ex & cp & out & w' & Hrun & _ & _ & [_ _ Hsz _]).
    exists ex, (0 + Z.of_nat (length cp)), w'. split; [done|].
    eapply Forall_impl; [exact Hsz|]. cbn. intros e He. lia.
Qed.

Lemma unreadable_size_not_excluded_witness :
  fst (get_file_size "src/missing.txt" Sample.world) = Ok (-1)
  /\ (SIZE_LIMIT <? -1) = false
  /\ exists w',
       create_backup_hierarchy "backup_root" "src/missing.txt" [] Sample.world =
         (Ok (None, []), w').
Proof.
  apply (proj1 (unreadable_size_not_excluded Sample.world "backup_root"
                  "src/missing.txt" [] [])).
  vm_compute. reflexivity.
Defined.

End size_limit.

Section invariant.
Import OS main Spec.

Lemma filter_key_absent {A} (g : A -> string) (l : list A) (k : string) :
  k ∉ map g l -> filter (fun y => g y = k) l = [].
Proof.
  induction l as [|a l IH]; [done|]. intros H. cbn [map] in H.
  apply not_elem_of_cons in H as [Hne Hl].
  rewrite filter_cons_False by congruence. by apply IH.
Qed.

Lemma filter_key_once {A} (g : A -> string) (l : list A) (k : string) :
  NoDup (map g l) -> k ∈ map g l ->
  exists x, filter (fun y => g y = k) l = [x] /\ g x = k.
Proof.
  induction l as [|a l IH]; cbn [map]; intros Hnd Hin.
  - by apply elem_of_nil in Hin.
  - apply NoDup_cons in Hnd as [Ha Hnd].
    destruct (decide (g a = k)) as [E|E].
    + exists a. rewrite filter_cons_True by done. split; [|done].
      f_equal. apply filter_key_absent. by rewrite <- E.
    + rewrite filter_cons_False by done.
      apply elem_of_cons in Hin as [Hk|Hin]; [congruence|]. by apply IH.
Qed.

(** C3: over distinct files and without a reported error, every file is
    either copied once, to the destination computed for it, and absent
    from the exclusion report, or reported once and not copied. *)
Theorem backup_loop_partition (w : World) (backup_root : string)
    (files_to_backup : list string) :
  NoDup files_to_backup ->
  exists excluded n copied out w',
    backup_loop backup_root files_to_backup ([], 0) w = (Ok (excluded, n), w')
    /\ w_copied w' = w_copied w ++ copied
    /\ w_stdout w' = w_stdout w ++ out
    /\ n = Z.of_nat (length copied)
    /\ (Forall (fun s => is_error_line s = false) out ->
        forall f, f ∈ files_to_backup ->
          (exists d,
              filter (fun c => c.1 = f) copied =
                [(f, expected_destination backup_root f d)]
              /\ filter (fun e => file e = f) excluded = [])
          \/ (exists e,
                filter (fun e => file e = f) excluded = [e]
                /\ filter (fun c => c.1 = f) copied = [])).
Proof.
  intros Hnd.
  destruct (backup_loop_summary backup_root files_to_backup w [] 0)
    as (ex & cp & out & w' & Hrun & Hcp & Hout & [_ Hall _ Hdest]).
  exists ex, (Z.of_nat (length cp)), cp, out, w'.
  repeat split; try done.
  intros Hclean f Hf. specialize (Hall Hclean).
  rewrite <- Hall in Hnd, Hf.
  apply NoDup_app in Hnd as (Hex & Hdisj & Hcps).
  apply elem_of_app in Hf as [Hf|Hf].
  - right. destruct (filter_key_once file ex f Hex Hf) as (e & He & _).
    exists e. split; [done|]. apply filter_key_absent. by apply Hdisj.
  - left. destruct (filter_key_once fst cp f Hcps Hf) as ([src dest] & Hc & Hsrc).
    cbn in Hsrc. subst src.
    assert ((f, dest) ∈ cp) as Hin.
    { eapply (list_elem_of_filter (fun c => c.1 = f)). rewrite Hc. left. }
    rewrite Forall_forall in Hdest. destruct (Hdest _ Hin) as [d Hd].
    cbn in Hd. exists d. rewrite Hc, Hd. split; [done|].
    apply filter_key_absent. intros Hx. by apply (Hdisj f).
Qed.

Lemma backup_loop_partition_witness :
  NoDup Sample.files
  /\ exists excluded n copied out w',
       backup_loop "backup_root" Sample.files ([], 0) Sample.world =
         (Ok (excluded, n), w')
       /\ Forall (fun s => is_error_line s = false) out
       /\ (exists d,
             filter (fun c => c.1 = "src/notes.md") copied =
               [("src/notes.md", expected_destination "backup_root" "src/notes.md" d)]
             /\ filter (fun e => file e = "src/notes.md") excluded = [])
       /\ (exists e,
             filter (fun e => file e = "src/Report.PDF") excluded = [e]
             /\ filter (fun c => c.1 = "src/Report.PDF") copied = []).
Proof.
  assert (NoDup Sample.files) as Hnd.
  { unfold Sample.files. apply NoDup_cons. split; [|apply NoDup_singleton].
    intros H%list_elem_of_singleton. discriminate H. }
  split; [exact Hnd|].
  destruct (backup_loop_partition Sample.world "backup_root" Sample.files Hnd)
    as (ex & n & cp & out & w' & Hrun & Hcp & Hout & Hn & H).
  assert (Forall (fun s => is_error_line s = false) out) as Hclean.
  { assert (w_stdout w' = ["Backed up: notes.md"]) as E.
    { change (w_stdout (snd (Ok (ex, n), w')) = ["Backed up: notes.md"]).
      rewrite <- Hrun. vm_compute. reflexivity. }
    rewrite E in Hout. cbn in Hout. subst out. by repeat constructor. }
  exists ex, n, cp, out, w'. split; [done|]. split; [done|].
  split.
  - assert ("src/notes.md" ∈ Sample.files) as Hin by (unfold Sample.files; left).
    destruct (H Hclean "src/notes.md" Hin) as [Hc|(e & He & Hc)]; [done|].
    exfalso.
    assert (ex = [exclusion_entry "src/Report.PDF" 31457280]) as E.
    { change (fst (default ([], 0) (match fst (Ok (ex, n), w') with Ok a => Some a | _ => None end))
              = [exclusion_entry "src/Report.PDF" 31457280]).
      rewrite <- Hrun. vm_compute. reflexivity. }
    subst ex. vm_compute in He. done.
  - assert ("src/Report.PDF" ∈ Sample.files) as Hin
      by (unfold Sample.files; right; left).
    destruct (H Hclean "src/Report.PDF" Hin) as [(d & Hc & He)|He]; [|done].
    exfalso.
    assert (ex = [exclusion_entry "src/Report.PDF" 31457280]) as E.
    { change (fst (default ([], 0) (match fst (Ok (ex, n), w') with Ok a => Some a | _ => None end))
              = [exclusion_entry "src/Report.PDF" 31457280]).
      rewrite <- Hrun. vm_compute. reflexivity. }
    subst ex. vm_compute in He. done.
Defined.

End invariant.

(** ** Paths: what [rfind], [basename] and [splitext] cut out *)

Section paths.
Import Spec.

Lemma drop_drop (n m : nat) (s : string) :
  Slice.drop n (Slice.drop m s) = Slice.drop (m + n) s.
Proof.
  revert s. induction m as [|m IH]; intros s; [done|].
  destruct s as [|c s]; cbn; [by destruct n|]. apply IH.
Qed.

Lemma has_chr_drop (c : ascii) (n : nat) (s : string) :
  has_chr c s = false -> has_chr c (Slice.drop n s) = false.
Proof.
  revert s. induction n as [|n IH]; intros s H; [done|].
  destruct s as [|a s]; [done|]. cbn in *.
  destruct (decide (a = c)); [done|]. by apply IH.
Qed.

(** [rfind] returns the default when the character does not occur, and
    otherwise an index that holds the character and after which it does not
    occur any more. *)
Lemma rfind_go_spec (c : ascii) (s : string) (i last : Z) :
  let r := Slice.rfind_go s c i last in
  (has_chr c s = false /\ r = last)
  \/ (i <= r < i + Z.of_nat (String.length s)
      /\ exists rest,
           Slice.drop (Z.to_nat (r - i)) s = String c rest
           /\ has_chr c rest = false).
Proof.
  revert i last. induction s as [|a s IH]; intros i last; cbn zeta.
  - left. done.
  - cbn [Slice.rfind_go has_chr String.length].
    destruct (IH (i + 1) (if decide (a = c) then i else last))
      as [[Hno Hr]|(Hr & rest & Hd & Hrest)].
    + destruct (decide (a = c)) as [->|Hac].
      * right. rewrite Hr. split; [lia|]. exists s.
        replace (i - i) with 0 by lia. done.
      * left. done.
    + right. split; [lia|]. exists rest. split; [|done].
      replace (Z.to_nat (Slice.rfind_go s c (i + 1) (if decide (a = c) then i else last) - i))
        with (S (Z.to_nat (Slice.rfind_go s c (i + 1) (if decide (a = c) then i else last) - (i + 1))))
        by lia.
      exact Hd.
Qed.

Lemma rfind_spec (c : ascii) (s : string) :
  (has_chr c s = false /\ Slice.rfind s c = -1)
  \/ (0 <= Slice.rfind s c < Z.of_nat (String.length s)
      /\ exists rest,
           Slice.drop (Z.to_nat (Slice.rfind s c)) s = String c rest
           /\ has_chr c rest = false).
Proof.
  destruct (rfind_go_spec c s 0 (-1)) as [H|(Hr & rest & Hd & Hrest)]; [by left|].
  right. fold (Slice.rfind s c) in *. split; [lia|]. exists rest.
  by rewrite Z.sub_0_r in Hd.
Qed.

(** What follows the last separator holds no separator. *)
Lemma after_last_sep (p : string) :
  has_chr "/" (Slice.drop (Z.to_nat (Slice.rfind p "/" + 1)) p) = false.
Proof.
  destruct (rfind_spec "/" p) as [[Hno Hr]|(Hr & rest & Hd & Hrest)].
  - rewrite Hr. done.
  - replace (Z.to_nat (Slice.rfind p "/" + 1)) with (Z.to_nat (Slice.rfind p "/") + 1)%nat by lia.
    rewrite <- drop_drop, Hd. done.
Qed.

Lemma basename_no_sep (p : string) : has_chr "/" (posixpath.basename p) = false.
Proof. apply after_last_sep. Qed.

(** The extension is empty, or a dot followed by characters that are
    neither dots nor separators. *)
Lemma splitext_ext (p : string) :
  snd (posixpath.splitext p) = ""
  \/ exists rest,
       snd (posixpath.splitext p) = String "." rest
       /\ has_chr "." rest = false /\ has_chr "/" rest = false.
Proof.
  unfold posixpath.splitext.
  destruct (Z.ltb_spec (Slice.rfind p "/") (Slice.rfind p ".")) as [Hlt|]; [|by left].
  destruct (posixpath.has_stem _ _ _); [|by left]. right. cbn [andb snd].
  destruct (rfind_spec "." p) as [[_ Hr]|(Hr & rest & Hd & Hrest)].
  { pose proof (after_last_sep p).
    destruct (rfind_spec "/" p) as [[_ Hs]|(Hs & _)]; lia. }
  exists rest. split; [done|]. split; [done|].
  pose proof (after_last_sep p) as Hsep.
  apply (has_chr_drop _ (Z.to_nat (Slice.rfind p "." - (Slice.rfind p "/" + 1)))) in Hsep.
  rewrite drop_drop in Hsep.
  replace (Z.to_nat (Slice.rfind p "/" + 1) + Z.to_nat (Slice.rfind p "." - (Slice.rfind p "/" + 1)))%nat
    with (Z.to_nat (Slice.rfind p ".")) in Hsep.
  - rewrite Hd in Hsep. cbn in Hsep. by destruct (decide ("."%char = "/"%char)).
  - destruct (rfind_spec "/" p) as [[_ Hs]|(Hs & _)]; lia.
Qed.

End paths.

(** ** Path segments and [os.path.join] *)

Section segments.
Import Spec.

Lemma chr_lower_fixes (c x : ascii) :
  x = "."%char \/ x = "/"%char -> Py.chr_lower c = x -> c = x.
Proof.
  intros [-> | ->]; destruct c as [[] [] [] [] [] [] [] []]; vm_compute; congruence.
Qed.

Lemma has_chr_lower (x : ascii) (s : string) :
  x = "."%char \/ x = "/"%char ->
  has_chr x s = false -> has_chr x (Py.lower s) = false.
Proof.
  intros Hx. induction s as [|c s IH]; [done|]. cbn.
  destruct (decide (c = x)) as [|Hc]; [done|]. intros H.
  destruct (decide (Py.chr_lower c = x)) as [E|]; [|by apply IH].
  by apply chr_lower_fixes in E.
Qed.

Lemma lstrip_chr_none (c : ascii) (s : string) :
  has_chr c s = false -> Py.lstrip_chr c s = s.
Proof. destruct s as [|a s]; [done|]. cbn. by destruct (decide (a = c)). Qed.

Lemma has_chr_rev_app (c : ascii) (s acc : string) :
  has_chr c (String.rev_app s acc) = has_chr c s || has_chr c acc.
Proof.
  revert acc. induction s as [|a s IH]; intros acc; [done|].
  cbn. rewrite IH. cbn. destruct (decide (a = c)); [|done].
  apply orb_true_r.
Qed.

Lemma has_chr_app (c : ascii) (a b : string) :
  has_chr c (a +:+ b) = has_chr c a || has_chr c b.
Proof.
  induction a as [|x a IH]; [done|]. rewrite str_app_cons. cbn.
  by destruct (decide (x = c)).
Qed.

Lemma rev_app_app (s t acc : string) :
  String.rev_app (s +:+ t) acc = String.rev_app t (String.rev_app s acc).
Proof.
  revert acc. induction s as [|a s IH]; intros acc; [done|].
  rewrite str_app_cons. cbn. apply IH.
Qed.

Lemma rev_app_acc (s acc : string) :
  String.rev_app s acc = String.rev_app s "" +:+ acc.
Proof.
  revert acc. induction s as [|a s IH]; intros acc; [done|].
  cbn. rewrite (IH (String a acc)), (IH (String a "")).
  by rewrite app_assoc_str.
Qed.

Lemma segment_startswith (s : string) :
  has_chr "/" s = false -> Py.startswith s posixpath.sep = false.
Proof.
  destruct s as [|a s]; [done|]. cbn.
  destruct (decide ("/"%char = a)) as [<-|]; [|done].
  by destruct (decide ("/"%char = "/"%char)).
Qed.

Lemma segment_endswith (path s : string) :
  is_segment s = true -> Py.endswith (path +:+ s) posixpath.sep = false.
Proof.
  intros [Hne Hno]%andb_true_iff. apply negb_true_iff in Hno.
  unfold Py.endswith, String.rev. rewrite rev_app_app.
  rewrite rev_app_acc.
  assert (has_chr "/" (String.rev_app s "") = false) as Hrev
    by (rewrite has_chr_rev_app, Hno; done).
  destruct s as [|a s]; [done|]. cbn in Hrev |- *.
  rewrite rev_app_acc in Hrev |- *. rewrite has_chr_app in Hrev.
  apply orb_false_iff in Hrev as [Hrev Ha].
  destruct (String.rev_app s "") as [|b t].
  - rewrite str_app_nil_l, str_app_cons. cbn in *.
    destruct (decide (a = "/"%char)) as [->|]; [done|].
    destruct (decide ("/"%char = a)); [congruence|done].
  - rewrite !str_app_cons. cbn in *.
    destruct (decide (b = "/"%char)) as [->|]; [done|].
    destruct (decide ("/"%char = b)); [congruence|done].
Qed.

(** Joining a path that is not empty and does not end in a separator with
    a segment puts one separator between them. *)
Lemma join_step_segment (path s : string) :
  path <> "" -> Py.endswith path posixpath.sep = false -> is_segment s = true ->
  posixpath.join_step path s = path +:+ "/" +:+ s.
Proof.
  intros Hp He Hs. unfold posixpath.join_step.
  apply andb_true_iff in Hs as [_ Hno]. apply negb_true_iff in Hno.
  rewrite (segment_startswith _ Hno), He.
  by destruct (decide (path = "")).
Qed.

Lemma join_segments (path : string) (segs : list string) :
  path <> "" -> Py.endswith path posixpath.sep = false ->
  Forall (fun s => is_segment s = true) segs ->
  posixpath.join path segs = foldl (fun p s => p +:+ "/" +:+ s) path segs
  /\ posixpath.join path segs <> ""
  /\ Py.endswith (posixpath.join path segs) posixpath.sep = false.
Proof.
  intros Hp He Hs. revert path Hp He.
  induction Hs as [|s segs Hs _ IH]; intros path Hp He; [done|].
  unfold posixpath.join in *. cbn [foldl].
  rewrite (join_step_segment _ _ Hp He Hs).
  apply IH.
  - intros [? _]%str_app_eq_empty. done.
  - rewrite <- app_assoc_str. by apply segment_endswith.
Qed.

End segments.

(** ** Dates: the ISO week and the folder names *)

Section dates.
Import Spec.

Lemma year_length (y : Z) :
  datetime.ymd2ord (y + 1) 1 1 - datetime.ymd2ord y 1 1 =
  if datetime.is_leap y then 366 else 365.
Proof.
  unfold datetime.ymd2ord, datetime.days_before_year, datetime.days_before_month,
    datetime.is_leap. cbn [datetime.DAYS_BEFORE_MONTH Z.ltb andb].
  replace (2 <? 1) with false by done. cbn [andb].
  replace (y + 1 - 1) with y by lia.
  destruct (Z.eqb_spec (y mod 4) 0), (Z.eqb_spec (y mod 100) 0),
    (Z.eqb_spec (y mod 400) 0); cbn [andb orb negb];
    Z.div_mod_to_equations; lia.
Qed.

Lemma day_of_year (d : datetime.t) :
  datetime.valid d ->
  0 <= datetime.ymd2ord (datetime.year d) (datetime.month d) (datetime.day d)
       - datetime.ymd2ord (datetime.year d) 1 1
    <= if datetime.is_leap (datetime.year d) then 365 else 364.
Proof.
  intros (_ & Hm & Hd & _). revert Hd.
  unfold datetime.ymd2ord, datetime.days_before_month, datetime.days_in_month.
  generalize (datetime.days_before_year (datetime.year d)). intros b.
  destruct (datetime.is_leap (datetime.year d));
    assert (datetime.month d = 1 \/ datetime.month d = 2 \/ datetime.month d = 3
            \/ datetime.month d = 4 \/ datetime.month d = 5 \/ datetime.month d = 6
            \/ datetime.month d = 7 \/ datetime.month d = 8 \/ datetime.month d = 9
            \/ datetime.month d = 10 \/ datetime.month d = 11 \/ datetime.month d = 12)
      as Hcases by lia;
    repeat (destruct Hcases as [-> | Hcases]); try rewrite Hcases; cbn; lia.
Qed.

Lemma isoweek1monday_bounds (y : Z) :
  datetime.ymd2ord y 1 1 - 3 <= datetime.isoweek1monday y <= datetime.ymd2ord y 1 1 + 3
  /\ (datetime.isoweek1monday y + 6) mod 7 = 0.
Proof.
  unfold datetime.isoweek1monday. cbn zeta.
  generalize (datetime.ymd2ord y 1 1). intros f.
  destruct (Z.ltb_spec 3 ((f + 6) mod 7)); Z.div_mod_to_equations; lia.
Qed.

(** The ISO week of a valid date lies between 1 and 53. *)
Lemma get_week_number_range (d : datetime.t) :
  datetime.valid d -> 1 <= main.get_week_number d <= 53.
Proof.
  intros Hv. unfold main.get_week_number, datetime.isocalendar.
  pose proof (day_of_year d Hv) as Hday.
  pose proof (year_length (datetime.year d)) as Hnext.
  pose proof (year_length (datetime.year d - 1)) as Hprev.
  replace (datetime.year d - 1 + 1) with (datetime.year d) in Hprev by lia.
  pose proof (isoweek1monday_bounds (datetime.year d)) as [Hw Hwm].
  pose proof (isoweek1monday_bounds (datetime.year d - 1)) as [Hp Hpm].
  pose proof (isoweek1monday_bounds (datetime.year d + 1)) as [Hn Hnm].
  revert Hday Hnext Hprev Hw Hwm Hp Hpm Hn Hnm.
  generalize (datetime.ymd2ord (datetime.year d) (datetime.month d) (datetime.day d)).
  generalize (datetime.ymd2ord (datetime.year d) 1 1).
  generalize (datetime.ymd2ord (datetime.year d - 1) 1 1).
  generalize (datetime.ymd2ord (datetime.year d + 1) 1 1).
  generalize (datetime.isoweek1monday (datetime.year d)).
  generalize (datetime.isoweek1monday (datetime.year d - 1)).
  generalize (datetime.isoweek1monday (datetime.year d + 1)).
  intros wn wp w fn fp f t Hday Hnext Hprev Hw Hwm Hp Hpm Hn Hnm.
  assert (365 <= fn - f <= 366) by (destruct (datetime.is_leap (datetime.year d)); lia).
  assert (365 <= f - fp <= 366) by (destruct (datetime.is_leap (datetime.year d - 1)); lia).
  assert (0 <= t - f <= fn - f - 1) by (destruct (datetime.is_leap (datetime.year d)); lia).
  clear Hday Hnext Hprev.
  destruct (Z.ltb_spec ((t - w) / 7) 0).
  - cbn. Z.div_mod_to_equations. lia.
  - destruct (Z.leb_spec 52 ((t - w) / 7)); destruct (Z.leb_spec wn t); cbn;
      Z.div_mod_to_equations; lia.
Qed.

End dates.

(** ** The destination of a file *)

Section destination.
Import OS main Spec.

Lemma holds_on_spec (f : Z -> bool) (lo : Z) (n : nat) :
  holds_on f lo n = true ->
  forall z, lo <= z < lo + Z.of_nat n -> f z = true.
Proof.
  unfold holds_on. rewrite forallb_forall. intros H z Hz.
  replace z with (lo + Z.of_nat (Z.to_nat (z - lo))) by lia.
  apply H, in_seq. lia.
Qed.

Lemma year_segment (y : Z) : 1 <= y <= 9999 -> digits_segment 4 y = true.
Proof.
  intros H. apply (holds_on_spec (digits_segment 4) 1 (Z.to_nat 9999)); [|lia].
  vm_compute. reflexivity.
Qed.

Lemma two_digits_segment (n : Z) : 1 <= n <= 53 -> digits_segment 2 n = true.
Proof.
  intros H. apply (holds_on_spec (digits_segment 2) 1 53); [|lia].
  vm_compute. reflexivity.
Qed.

Lemma digits_segment_spec (w : nat) (n : Z) :
  digits_segment w n = true ->
  String.length (Py.zfill w n) = w /\ is_segment (Py.zfill w n) = true.
Proof.
  intros [H1 H2]%andb_true_iff. by apply bool_decide_eq_true in H1.
Qed.

(** The extension folder is the lower-cased extension without its dot. *)
Lemma extension_folder_spec (file_path : string) :
  (get_file_extension file_path = "" /\ extension_folder file_path = "")
  \/ (get_file_extension file_path = String "." (extension_folder file_path)
      /\ has_chr "." (extension_folder file_path) = false
      /\ has_chr "/" (extension_folder file_path) = false).
Proof.
  unfold extension_folder, get_file_extension.
  destruct (splitext_ext file_path) as [->|(rest & -> & Hdot & Hsep)]; [by left|].
  right. cbn [Py.lower].
  change (Py.chr_lower ".") with "."%char. cbn [Py.lstrip_chr].
  destruct (decide ("."%char = "."%char)); [|done].
  rewrite lstrip_chr_none by (apply has_chr_lower; auto).
  repeat split; apply has_chr_lower; auto.
Qed.

Lemma join_step_no_sep (path s : string) :
  path <> "" -> Py.endswith path posixpath.sep = false -> has_chr "/" s = false ->
  posixpath.join_step path s = path +:+ "/" +:+ s.
Proof.
  intros Hp He Hno. unfold posixpath.join_step.
  rewrite (segment_startswith _ Hno), He.
  by destruct (decide (path = "")).
Qed.

(** C2: a file at or under the size limit, whose creation date can be
    read and whose destination folder can be made, is sent to
    [root/YYYY/MM/Www/ext/basename]: four digits of the year and two of the
    month of its creation date, [W] and the two digits of its ISO week,
    the lower-cased extension without its dot, and its base name. *)
Theorem destination_hierarchy (w : World) (backup_root file_path : string)
    (excluded_size_files : list excluded_file) (st : stat_result) :
  w_stat w !! file_path = Some st ->
  st_size st <= SIZE_LIMIT ->
  datetime.valid (st_ctime st) ->
  destination_dir backup_root file_path (st_ctime st) ∉ w_locked w ->
  w_stat w !! destination_dir backup_root file_path (st_ctime st) = None ->
  let d := st_ctime st in
  let YYYY := datetime.strftime_Y d in
  let MM := datetime.strftime_m d in
  let week := snd (fst (datetime.isocalendar d)) in
  let WW := Py.zfill 2 week in
  let ext := Py.lstrip_chr "." (Py.lower (snd (posixpath.splitext file_path))) in
  (exists w',
      create_backup_hierarchy backup_root file_path excluded_size_files w =
        (Ok (Some (posixpath.join backup_root
                     [YYYY; MM; "W" +:+ WW; ext; posixpath.basename file_path]),
             excluded_size_files), w'))
  /\ YYYY = Py.zfill 4 (datetime.year d) /\ String.length YYYY = 4%nat
  /\ MM = Py.zfill 2 (datetime.month d) /\ String.length MM = 2%nat
  /\ 1 <= week <= 53 /\ String.length WW = 2%nat
  /\ (Py.lower (snd (posixpath.splitext file_path)) = "" /\ ext = ""
      \/ Py.lower (snd (posixpath.splitext file_path)) = String "." ext
         /\ has_chr "." ext = false)
  /\ (backup_root <> "" -> Py.endswith backup_root "/" = false -> ext <> "" ->
      posixpath.join backup_root
        [YYYY; MM; "W" +:+ WW; ext; posixpath.basename file_path] =
      backup_root +:+ "/" +:+ YYYY +:+ "/" +:+ MM +:+ "/" +:+ "W" +:+ WW
        +:+ "/" +:+ ext +:+ "/" +:+ posixpath.basename file_path).
Proof.
  intros Hst Hsz Hv Hl Hf d YYYY MM week WW ext.
  pose proof (get_week_number_range d Hv) as Hweek.
  destruct Hv as (Hy & Hm & _).
  destruct (digits_segment_spec 4 _ (year_segment _ Hy)) as [HYl HYs].
  assert (1 <= datetime.month d <= 53) as Hm' by (unfold d; lia).
  destruct (digits_segment_spec 2 _ (two_digits_segment _ Hm')) as [HMl HMs].
  destruct (digits_segment_spec 2 week (two_digits_segment _ Hweek)) as [HWl HWs].
  split; [eexists; by apply create_backup_hierarchy_placed|].
  split; [done|]. split; [exact HYl|]. split; [done|]. split; [exact HMl|].
  split; [exact Hweek|]. split; [exact HWl|]. split.
  - destruct (extension_folder_spec file_path) as [[H1 H2]|(H1 & H2 & _)];
      [by left | by right].
  - intros Hr He Hext.
    assert (is_segment ext = true) as Hes.
    { destruct (extension_folder_spec file_path) as [[_ H]|(_ & _ & H)]; [done|].
      change (extension_folder file_path) with ext in H.
      unfold is_segment. rewrite H. by rewrite bool_decide_eq_false_2. }
    assert (is_segment ("W" +:+ WW) = true) as HWWs.
    { apply andb_true_iff in HWs as [_ H]. unfold is_segment.
      rewrite str_app_cons, str_app_nil_l. cbn [has_chr].
      destruct (decide ("W"%char = "/"%char)); [done|].
      by rewrite bool_decide_eq_false_2. }
    destruct (join_segments backup_root [YYYY; MM; "W" +:+ WW; ext] Hr He)
      as (Hj & Hne & Hend); [by repeat constructor|].
    change (posixpath.join backup_root
              [YYYY; MM; "W" +:+ WW; ext; posixpath.basename file_path])
      with (posixpath.join_step
              (posixpath.join backup_root [YYYY; MM; "W" +:+ WW; ext])
              (posixpath.basename file_path)).
    rewrite (join_step_no_sep _ _ Hne Hend (basename_no_sep file_path)), Hj.
    cbn [foldl]. by rewrite !app_assoc_str.
Qed.

Lemma destination_hierarchy_witness :
  exists w',
    create_backup_hierarchy "backup_root" "src/notes.md" [] Sample.world =
      (Ok (Some "backup_root/2024/01/W01/md/notes.md", []), w').
Proof.
  assert (datetime.valid Sample.created) as Hv
    by (unfold datetime.valid; cbn; lia).
  apply (destination_hierarchy Sample.world "backup_root" "src/notes.md" []
           (mk_stat 10240 Sample.created)).
  - vm_compute. reflexivity.
  - cbn. unfold SIZE_LIMIT. lia.
  - exact Hv.
  - vm_compute. set_solver.
  - vm_compute. reflexivity.
Defined.

End destination.

(** ** File discovery *)

Section discovery.
Import main Spec.

Lemma listing_induction (P : listing -> Prop) :
  (forall subdirs filenames,
      Forall (fun d => P d.2) subdirs -> P (Listing subdirs filenames)) ->
  forall t, P t.
Proof.
  intros H. fix IH 1. intros [subdirs filenames]. apply H.
  induction subdirs as [|[d sub] rest IHrest]; constructor; [apply IH | apply IHrest].
Qed.

Lemma os_walk_unfold (keep : string -> list string -> list string)
    (top : string) (subdirs : list (string * listing)) (filenames : list string) :
  os_walk keep top (Listing subdirs filenames) =
  (top, keep top (map fst subdirs), filenames) ::
  flat_map
    (fun ds =>
       if bool_decide (ds.1 ∈ keep top (map fst subdirs))
       then os_walk keep (posixpath.join top [ds.1]) ds.2 else [])
    subdirs.
Proof.
  cbn [os_walk]. f_equal. generalize (keep top (map fst subdirs)). intros dirs.
  induction subdirs as [|[d sub] rest IH]; [done|].
  cbn [flat_map fst snd]. rewrite <- IH.
  by destruct (bool_decide (d ∈ dirs)).
Qed.

Lemma all_files_unfold (top : string) (subdirs : list (string * listing))
    (filenames : list string) :
  all_files top (Listing subdirs filenames) =
  map (fun filename => posixpath.join top [filename]) filenames ++
  flat_map (fun ds => all_files (posixpath.join top [ds.1]) ds.2) subdirs.
Proof.
  cbn [all_files]. f_equal.
  induction subdirs as [|[d sub] rest IH]; [done|].
  cbn [flat_map fst snd]. by rewrite <- IH.
Qed.

Lemma valid_listing_unfold (subdirs : list (string * listing)) (filenames : list string) :
  valid_listing (Listing subdirs filenames) = true <->
  Forall (fun f => is_segment f = true) filenames
  /\ Forall (fun ds => is_segment ds.1 = true /\ valid_listing ds.2 = true) subdirs.
Proof.
  cbn [valid_listing]. rewrite andb_true_iff, forallb_forall, Forall_forall.
  setoid_rewrite list_elem_of_In.
  apply and_iff_compat_l.
  induction subdirs as [|[d sub] rest IH].
  - split; [constructor | done].
  - rewrite !andb_true_iff, IH, Forall_cons. cbn. tauto.
Qed.

Lemma join_one_prefix (top name : string) :
  has_chr "/" name = false -> exists q, posixpath.join top [name] = top +:+ q.
Proof.
  intros H. unfold posixpath.join. cbn [foldl]. unfold posixpath.join_step.
  rewrite (segment_startswith _ H).
  destruct (decide (top = "")); [by eexists|].
  destruct (Py.endswith top posixpath.sep); by eexists.
Qed.

Lemma segment_no_sep (s : string) : is_segment s = true -> has_chr "/" s = false.
Proof. intros [_ H]%andb_true_iff. by apply negb_true_iff in H. Qed.

(** Every path below [top] starts with [top]. *)
Lemma all_files_prefix (t : listing) :
  valid_listing t = true ->
  forall top p, In p (all_files top t) -> exists q, p = top +:+ q.
Proof.
  induction t as [subdirs filenames IH] using listing_induction.
  intros [Hf Hd]%valid_listing_unfold top p. rewrite all_files_unfold, in_app_iff.
  intros [Hp|Hp].
  - apply in_map_iff in Hp as (f & <- & Hin).
    apply join_one_prefix, segment_no_sep.
    rewrite Forall_forall in Hf. by apply Hf, list_elem_of_In.
  - apply in_flat_map in Hp as ([d sub] & Hin & Hp). cbn [fst snd] in Hp.
    apply list_elem_of_In in Hin.
    rewrite Forall_forall in IH, Hd.
    destruct (Hd _ Hin) as [Hseg Hval]. cbn [fst snd] in *.
    destruct (IH _ Hin Hval _ _ Hp) as [q ->].
    destruct (join_one_prefix top d (segment_no_sep _ Hseg)) as [q' ->].
    exists (q' +:+ q). by rewrite app_assoc_str.
Qed.

(** Below an excluded directory every path is excluded. *)
Lemma all_files_excluded (t : listing) (top p : string) (excluded_paths : gset string) :
  valid_listing t = true ->
  is_path_excluded top excluded_paths = true ->
  In p (all_files top t) ->
  is_path_excluded p excluded_paths = true.
Proof.
  intros Hv He Hp. destruct (all_files_prefix t Hv top p Hp) as [q ->].
  by apply is_path_excluded_app.
Qed.

Lemma flat_map_flat_map {A B C} (f : B -> list C) (g : A -> list B) (l : list A) :
  flat_map f (flat_map g l) = flat_map (fun x => flat_map f (g x)) l.
Proof.
  induction l as [|a l IH]; [done|]. cbn. by rewrite flat_map_app, IH.
Qed.

Lemma find_all_files_unfold (top : string) (subdirs : list (string * listing))
    (filenames : list string) (excluded_paths : gset string) :
  find_all_files top (Listing subdirs filenames) excluded_paths =
  kept_files excluded_paths top filenames ++
  flat_map
    (fun ds =>
       if bool_decide (ds.1 ∈ prune_dirs excluded_paths top (map fst subdirs))
       then find_all_files (posixpath.join top [ds.1]) ds.2 excluded_paths else [])
    subdirs.
Proof.
  unfold find_all_files at 1. rewrite os_walk_unfold. cbn [flat_map].
  fold (kept_files excluded_paths top filenames). f_equal.
  rewrite flat_map_flat_map. apply flat_map_ext. intros [d sub]. cbn [fst snd].
  by destruct (bool_decide _).
Qed.

Lemma kept_files_In (excluded_paths : gset string) (root : string)
    (filenames : list string) (p : string) :
  In p (kept_files excluded_paths root filenames) <->
  In p (map (fun filename => posixpath.join root [filename]) filenames)
  /\ is_path_excluded p excluded_paths = false
  /\ is_supported_file p = true.
Proof.
  unfold kept_files. rewrite in_flat_map, in_map_iff. split.
  - intros (f & Hin & Hp). cbn zeta in Hp.
    destruct (is_path_excluded _ _) eqn:E1; [done|].
    destruct (is_supported_file _) eqn:E2; [|done].
    destruct Hp as [<-|[]]. split; [by exists f|done].
  - intros ((f & <- & Hin) & E1 & E2). exists f. split; [done|].
    cbn zeta. rewrite E1, E2. by left.
Qed.

Lemma prune_dirs_elem (excluded_paths : gset string) (root d : string) (dirs : list string) :
  d ∈ prune_dirs excluded_paths root dirs <->
  is_path_excluded (posixpath.join root [d]) excluded_paths = false /\ d ∈ dirs.
Proof.
  unfold prune_dirs.
  apply (list_elem_of_filter
           (fun d => is_path_excluded (posixpath.join root [d]) excluded_paths = false)).
Qed.

(** Discovery keeps exactly the files below the top that are supported and
    not excluded: pruning loses none of them. *)
Lemma find_all_files_In (t : listing) (excluded_paths : gset string) :
  valid_listing t = true ->
  forall top p,
    In p (find_all_files top t excluded_paths) <->
    In p (all_files top t)
    /\ is_path_excluded p excluded_paths = false
    /\ is_supported_file p = true.
Proof.
  induction t as [subdirs filenames IH] using listing_induction.
  intros Hv top p. pose proof Hv as [Hf Hd]%valid_listing_unfold.
  rewrite Forall_forall in IH, Hd.
  rewrite find_all_files_unfold, all_files_unfold, !in_app_iff, kept_files_In,
    !in_flat_map.
  split.
  - intros [(H1 & H2 & H3)|([d sub] & Hin & Hp)]; [tauto|].
    cbn [fst snd] in Hp. destruct (bool_decide _); [|done].
    apply list_elem_of_In in Hin. destruct (Hd _ Hin) as [_ Hval].
    apply (IH _ Hin Hval) in Hp as (H1 & H2 & H3).
    split; [|done]. right. exists (d, sub). split; [by apply list_elem_of_In|done].
  - intros ([H1|([d sub] & Hin & Hp)] & H2 & H3); [tauto|].
    right. exists (d, sub). split; [done|]. cbn [fst snd] in *.
    apply list_elem_of_In in Hin. destruct (Hd _ Hin) as [_ Hval]. cbn [snd] in Hval.
    rewrite bool_decide_eq_true_2.
    + by apply (IH _ Hin Hval).
    + apply prune_dirs_elem. split.
      * destruct (is_path_excluded (posixpath.join top [d]) excluded_paths) eqn:E; [|done].
        rewrite (all_files_excluded sub _ p excluded_paths Hval E Hp) in H2. done.
      * apply list_elem_of_In, in_map_iff. exists (d, sub).
        split; [done|]. by apply list_elem_of_In.
Qed.

(** The walk only enters directories that are not excluded, and what it
    leaves in [dirs] is not excluded either. *)
Lemma os_walk_pruned (t : listing) (excluded_paths : gset string) :
  forall top root dirs filenames,
    In (root, dirs, filenames) (os_walk (prune_dirs excluded_paths) top t) ->
    (root = top \/ is_path_excluded root excluded_paths = false)
    /\ forall d, d ∈ dirs ->
         is_path_excluded (posixpath.join root [d]) excluded_paths = false.
Proof.
  induction t as [subdirs filenames IH] using listing_induction.
  intros top root dirs fs. rewrite os_walk_unfold. cbn [In].
  intros [E|Hin].
  - injection E as <- <- <-. split; [by left|].
    intros d Hd. by apply prune_dirs_elem in Hd as [? _].
  - apply in_flat_map in Hin as ([d sub] & Hds & Hin). cbn [fst snd] in Hin.
    destruct (bool_decide_reflect (d ∈ prune_dirs excluded_paths top (map fst subdirs)))
      as [Hd|]; [|done].
    apply prune_dirs_elem in Hd as [Hd _].
    rewrite Forall_forall in IH. apply list_elem_of_In in Hds.
    destruct (IH _ Hds _ _ _ _ Hin) as [[->|Hr] Hdirs]; split; auto.
Qed.

(** C4: discovery returns exactly the files of the tree whose lower-cased
    path contains no exclusion pattern and whose lower-cased extension is
    supported; no returned path contains a pattern; the walk neither keeps
    nor enters a sub-directory that matches one. *)
Theorem find_all_files_spec (directory : string) (tree : listing)
    (excluded_paths : gset string) :
  valid_listing tree = true ->
  (forall p,
      p ∈ find_all_files directory tree excluded_paths <->
      p ∈ all_files directory tree
      /\ (forall e, e ∈ excluded_paths -> Py.contains e (Py.lower p) = false)
      /\ Py.lower (snd (posixpath.splitext p)) ∈ SUPPORTED_EXTENSIONS)
  /\ (forall p e,
        p ∈ find_all_files directory tree excluded_paths ->
        e ∈ excluded_paths -> Py.contains e (Py.lower p) = false)
  /\ (forall root dirs filenames,
        (root, dirs, filenames) ∈ os_walk (prune_dirs excluded_paths) directory tree ->
        (root = directory
         \/ forall e, e ∈ excluded_paths -> Py.contains e (Py.lower root) = false)
        /\ forall d e, d ∈ dirs -> e ∈ excluded_paths ->
             Py.contains e (Py.lower (posixpath.join root [d])) = false).
Proof.
  intros Hv.
  assert (forall p,
             p ∈ find_all_files directory tree excluded_paths <->
             p ∈ all_files directory tree
             /\ (forall e, e ∈ excluded_paths -> Py.contains e (Py.lower p) = false)
             /\ Py.lower (snd (posixpath.splitext p)) ∈ SUPPORTED_EXTENSIONS) as Hiff.
  { intros p. rewrite !list_elem_of_In, (find_all_files_In tree excluded_paths Hv).
    rewrite is_path_excluded_false. unfold is_supported_file, get_file_extension.
    by rewrite bool_decide_eq_true. }
  split; [exact Hiff|]. split.
  - intros p e Hp He. apply Hiff in Hp as (_ & H & _). by apply H.
  - intros root dirs filenames Hin. apply list_elem_of_In in Hin.
    destruct (os_walk_pruned tree excluded_paths _ _ _ _ Hin) as [Hroot Hdirs].
    split.
    + destruct Hroot as [->|Hr]; [by left|]. right. by apply is_path_excluded_false.
    + intros d e Hd He. specialize (Hdirs d Hd).
      rewrite is_path_excluded_false in Hdirs. by apply Hdirs.
Qed.

Lemma find_all_files_spec_witness :
  find_all_files "project" Sample.tree {[ "node_modules" ]} =
    ["project/notes.md"; "project/Docs/a.PDF"; "project/Docs/Temp/x.TXT"]
  /\ forall p e,
       p ∈ find_all_files "project" Sample.tree {[ "node_modules" ]} ->
       e ∈ ({[ "node_modules" ]} : gset string) ->
       Py.contains e (Py.lower p) = false.
Proof.
  split; [vm_compute; reflexivity|].
  apply (find_all_files_spec "project" Sample.tree {[ "node_modules" ]}).
  vm_compute. reflexivity.
Defined.

End discovery.

(** ** The exclusion log *)

Section exclusion_log.
Import OS main Spec.

Lemma log_entries_length (excluded_files : list excluded_file) (idx : Z) :
  length (log_entries idx excluded_files) = (4 * length excluded_files)%nat.
Proof.
  revert idx. induction excluded_files as [|e rest IH]; intros idx; [done|].
  cbn [log_entries length]. rewrite length_app, IH. cbn. lia.
Qed.

(** The [i]-th entry is written as block number [idx + i], four chunks
    from position [4 * i] on. *)
Lemma log_entries_lookup (excluded_files : list excluded_file) (idx : Z)
    (i : nat) (e : excluded_file) :
  excluded_files !! i = Some e ->
  forall k, (k < 4)%nat ->
    log_entries idx excluded_files !! (4 * i + k)%nat =
    log_entry (idx + Z.of_nat i) e !! k.
Proof.
  revert idx i. induction excluded_files as [|e0 rest IH]; intros idx i Hi k Hk; [done|].
  cbn [log_entries]. destruct i as [|i].
  - injection Hi as ->. rewrite Z.add_0_r.
    rewrite lookup_app_l by (cbn; lia). done.
  - cbn in Hi. rewrite lookup_app_r by (cbn; lia).
    replace (4 * S i + k - length (log_entry idx e0))%nat with (4 * i + k)%nat
      by (cbn; lia).
    rewrite (IH (idx + 1) i Hi k Hk). f_equal. f_equal. lia.
Qed.

Lemma log_writes_entries (now : datetime.t) (excluded_files : list excluded_file) :
  excluded_files <> [] ->
  exists c0 c1 c2 c3 f0 f1,
    log_writes now excluded_files =
    [ c0; c1; c2; c3;
      "Total excluded files: "
        +:+ Py.str_of_Z (Z.of_nat (length excluded_files)) +:+ "

" ]
    ++ log_entries 1 excluded_files ++ [f0; f1].
Proof.
  intros Hne. destruct excluded_files as [|e0 rest]; [done|].
  do 6 eexists. reflexivity.
Qed.

(** C5: the log is replaced by the report; with no entry the report holds
    the line [No files were excluded.]; with N entries it holds the total
    N and N numbered blocks, block i giving the path and the size in MB of
    entry i. *)
Theorem log_excluded_files_report (w : World) (excluded_files : list excluded_file)
    (log_file : string) :
  log_file ∉ w_locked w -> log_file ∉ w_dirs w ->
  let writes := log_writes (w_now w) excluded_files in
  exists w',
    log_excluded_files excluded_files log_file w = (Ok tt, w')
    /\ w_text w' !! log_file = Some (foldr String.app "" writes)
    /\ (excluded_files = [] ->
        writes !! 4%nat = Some "No files were excluded.
"
        /\ length writes = 7%nat
        /\ Py.contains "No files were excluded." (foldr String.app "" writes) = true)
    /\ (excluded_files <> [] ->
        writes !! 4%nat =
          Some ("Total excluded files: "
                +:+ Py.str_of_Z (Z.of_nat (length excluded_files)) +:+ "

")
        /\ length writes = (7 + 4 * length excluded_files)%nat
        /\ forall (i : nat) (e : excluded_file),
             excluded_files !! i = Some e ->
             writes !! (5 + 4 * i)%nat =
               Some (Py.str_of_Z (Z.of_nat i + 1) +:+ ". File: " +:+ file e +:+ "
")
             /\ writes !! (6 + 4 * i)%nat =
                  Some ("   Size: " +:+ Float2.repr (size_mb e) +:+ " MB
")).
Proof.
  intros Hl Hd writes. eexists. split; [|split; [|split]].
  - unfold log_excluded_files, try_except, bind, Sys.now, gets, Sys.write_text.
    rewrite bool_decide_eq_false_2 by done.
    rewrite bool_decide_eq_false_2 by done. cbn. reflexivity.
  - cbn. by rewrite lookup_insert_eq.
  - intros ->. split; [done|]. split; [done|].
    unfold writes, log_writes. cbn [app foldr].
    do 4 apply contains_app_l. by apply contains_app_r.
  - intros Hne. unfold writes.
    destruct (log_writes_entries (w_now w) excluded_files Hne)
      as (c0 & c1 & c2 & c3 & f0 & f1 & ->).
    split; [done|]. split.
    + rewrite !length_app, log_entries_length. cbn. lia.
    + intros i e Hi.
      pose proof (log_entries_lookup excluded_files 1 i e Hi) as Hk.
      pose proof (lookup_lt_Some _ _ _ Hi) as Hlt.
      split.
      * rewrite lookup_app_r by (cbn; lia).
        rewrite lookup_app_l by (rewrite log_entries_length; cbn; lia).
        replace (5 + 4 * i - length [c0; c1; c2; c3;
                   "Total excluded files: "
                     +:+ Py.str_of_Z (Z.of_nat (length excluded_files)) +:+ "

"])%nat with (4 * i + 0)%nat by (cbn; lia).
        rewrite (Hk 0%nat) by lia. cbn. do 3 f_equal. lia.
      * rewrite lookup_app_r by (cbn; lia).
        rewrite lookup_app_l by (rewrite log_entries_length; cbn; lia).
        replace (6 + 4 * i - length [c0; c1; c2; c3;
                   "Total excluded files: "
                     +:+ Py.str_of_Z (Z.of_nat (length excluded_files)) +:+ "

"])%nat with (4 * i + 1)%nat by (cbn; lia).
        rewrite (Hk 1%nat) by lia. done.
Qed.

Lemma log_excluded_files_report_witness :
  exists w',
    log_excluded_files [exclusion_entry "src/Report.PDF" 31457280]
      "backup_excluded.log" Sample.world = (Ok tt, w')
    /\ w_text w' !! "backup_excluded.log" = Some
"================================================================================
BACKUP EXCLUDED FILES LOG - 2024-03-13 09:05:00
================================================================================

The following files were EXCLUDED from backup due to exceeding 25MB size limit:

Total excluded files: 1

1. File: src/Report.PDF
   Size: 30.0 MB
   Would be located: Backup folder structure would apply

================================================================================
To fix this, consider using git-lfs (Large File Storage) or exclude these files in config.
".
Proof.
  destruct (log_excluded_files_report Sample.world
              [exclusion_entry "src/Report.PDF" 31457280] "backup_excluded.log")
    as (w' & Hrun & Htext & _).
  - vm_compute. set_solver.
  - vm_compute. set_solver.
  - exists w'. split; [exact Hrun|]. rewrite Htext. vm_compute. reflexivity.
Defined.

End exclusion_log.

(** ** Commit and push *)

Section commit.
Import OS github_uploader Spec.

Lemma run_unfold (argv : list string) (cwd : string) (check : bool) (w : World) :
  Sys.run argv cwd check w =
  match w_spawn w (w_calls w) (mk_call argv cwd) with
  | None => (Raised (FileNotFoundError (hd "" argv)), w)
  | Some r =>
      if check && negb (returncode r =? 0)
      then (Raised (CalledProcessError (returncode r) (proc_stderr r)),
            set_calls (fun cs => cs ++ [mk_call argv cwd]) w)
      else (Ok r, set_calls (fun cs => cs ++ [mk_call argv cwd]) w)
  end.
Proof. reflexivity. Qed.

(** A run that stopped before the status: the calls made hold neither
    the status nor a commit or a push. *)
Ltac stopped_early :=
  split; [reflexivity|];
  split; [cbn; rewrite <- ?app_assoc, ?app_nil_r; reflexivity|];
  split; [by repeat constructor|];
  let H := fresh "H" in
  intros H; exfalso;
  repeat (apply elem_of_cons in H as [H|H]; [discriminate H|]);
  by apply elem_of_nil in H.

(** C6: when the status of the staged tree comes back empty,
    [commit_and_push] runs neither a commit nor a push, and it returns
    [True]. *)
Theorem commit_and_push_clean (w : World) (repo_path commit_message : string) :
  (forall r,
      w_spawn w (w_calls w ++ staging_calls repo_path) (status_call repo_path) = Some r ->
      Py.strip (proc_stdout r) = "") ->
  exists b new w',
    commit_and_push repo_path commit_message w = (Ok b, w')
    /\ w_calls w' = w_calls w ++ new
    /\ Forall (fun c => is_commit_or_push c = false) new
    /\ (status_call repo_path ∈ new ->
        b = true /\ new = staging_calls repo_path ++ [status_call repo_path]).
Proof.
  intros Hclean. unfold commit_and_push, try_except, bind.
  rewrite run_unfold.
  destruct (w_spawn w (w_calls w) _) as [r1|] eqn:E1;
    [|eexists false, [], _; stopped_early].
  destruct (returncode r1 =? 0) eqn:R1; cbn [andb negb];
    [|eexists false, [_], _; stopped_early].
  rewrite run_unfold. cbn [w_spawn w_calls set_calls].
  destruct (w_spawn w (w_calls w ++ [_]) _) as [r2|] eqn:E2;
    [|eexists false, [_], _; stopped_early].
  destruct (returncode r2 =? 0) eqn:R2; cbn [andb negb];
    [|eexists false, [_; _], _; stopped_early].
  rewrite run_unfold. cbn [w_spawn w_calls set_calls].
  destruct (w_spawn w ((w_calls w ++ [_]) ++ [_]) _) as [r3|] eqn:E3;
    [|eexists false, [_; _], _; stopped_early].
  destruct (returncode r3 =? 0) eqn:R3; cbn [andb negb];
    [|eexists false, [_; _; _], _; stopped_early].
  unfold Sys.print at 1, modify. rewrite run_unfold.
  cbn [w_spawn w_calls set_calls set_stdout andb].
  rewrite <- !app_assoc. cbn [app].
  change (w_calls w ++ [_; _; _]) with (w_calls w ++ staging_calls repo_path).
  fold (status_call repo_path).
  destruct (w_spawn w (w_calls w ++ staging_calls repo_path) (status_call repo_path))
    as [r4|] eqn:E4;
    [|eexists false, (staging_calls repo_path), _; stopped_early].
  rewrite (Hclean r4 eq_refl). rewrite bool_decide_eq_true_2 by done.
  eexists true, (staging_calls repo_path ++ [status_call repo_path]), _.
  split; [reflexivity|].
  split; [cbn; rewrite <- ?app_assoc; reflexivity|].
  split; [by repeat constructor | done].
Qed.

Lemma commit_and_push_clean_witness :
  exists new w',
    commit_and_push "backups" "Auto backup" Sample.clean_repo = (Ok true, w')
    /\ w_calls w' = new
    /\ Forall (fun c => is_commit_or_push c = false) new
    /\ new = staging_calls "backups" ++ [status_call "backups"].
Proof.
  destruct (commit_and_push_clean Sample.clean_repo "backups" "Auto backup")
    as (b & new & w' & Hrun & Hcalls & Hnone & Hstatus).
  - intros r Hr. vm_compute in Hr. injection Hr as <-. reflexivity.
  - assert (new = staging_calls "backups" ++ [status_call "backups"]) as Hnew.
    { cbn in Hcalls. rewrite <- Hcalls.
      change (w_calls (snd (Ok b, w')) =
              staging_calls "backups" ++ [status_call "backups"]).
      rewrite <- Hrun. vm_compute. reflexivity. }
    destruct Hstatus as [-> _].
    { rewrite Hnew. apply elem_of_app. right. left. }
    by exists new, w'.
Defined.

End commit.

(** ** Upload: configuration errors *)

Section upload.
Import OS github_uploader Spec.

Lemma only_printed_refl (w : World) : only_printed w w.
Proof. unfold only_printed. by destruct w. Qed.

Lemma config_line_keeps (config : dict) (line key : string) :
  is_Some (config !! key) -> is_Some (config_line config line !! key).
Proof.
  intros H. unfold config_line.
  destruct (negb _ && negb _); [|done].
  destruct (Py.contains "=" (Py.strip line)); [|done].
  destruct (Py.split_once "=" (Py.strip line)) as [k v].
  destruct (decide (Py.strip k = key)) as [->|Hne].
  - rewrite lookup_insert_eq. eauto.
  - by rewrite lookup_insert_ne.
Qed.

Lemma foldl_config_line_keeps (lines : list string) (config : dict) (key : string) :
  is_Some (config !! key) -> is_Some (foldl config_line config lines !! key).
Proof.
  revert config. induction lines as [|l lines IH]; intros config H; [done|].
  cbn. by apply IH, config_line_keeps.
Qed.

(** [load_config] never raises, only prints, and always returns a
    dictionary that holds the three keys. *)
Lemma load_config_run (w : World) (config_file : string) :
  exists out,
    load_config config_file w =
      (Ok (config_read w config_file), set_stdout (fun _ => out) w)
    /\ is_Some (config_read w config_file !! "GITHUB_REPO_URL")
    /\ is_Some (config_read w config_file !! "SSH_KEY_PATH")
    /\ is_Some (config_read w config_file !! "COMMIT_MESSAGE").
Proof.
  unfold config_read, load_config, try_except, bind, Sys.exists_, gets,
    Sys.read_text, Sys.print, modify, ret.
  destruct (bool_decide (is_Some (w_stat w !! config_file))
            || bool_decide (config_file ∈ w_dirs w)); cbn [negb].
  - destruct (w_text w !! config_file) as [text|]; cbn [fst].
    + exists (w_stdout w). split; [by destruct w|].
      repeat split; by apply foldl_config_line_keeps.
    + eexists. split; [reflexivity|]. repeat split; by vm_compute; eauto.
  - eexists. split; [reflexivity|]. repeat split; by vm_compute; eauto.
Qed.

Lemma config_read_stdout (f : list string -> list string) (w : World) (config_file : string) :
  config_read (set_stdout f w) config_file = config_read w config_file.
Proof.
  unfold config_read, load_config, try_except, bind, Sys.exists_, gets,
    Sys.read_text, Sys.print, modify, ret.
  destruct w as [st tx ds lk nw en md sp cs cp so]. cbn.
  destruct (bool_decide (is_Some (st !! config_file))
            || bool_decide (config_file ∈ ds)); cbn; [|done].
  by destruct (tx !! config_file).
Qed.




End upload.

(** * Further properties of the code *)

(** ** Dates *)

Section week_numbers.
Import Spec.

(** The docstring of [get_week_number] promises a week number between 1
    and 53; and, as ISO 8601 has it, the fourth of January always lies in
    week 1 and the 28th of December never does. *)
Theorem get_week_number_iso (d : datetime.t) :
  datetime.valid d ->
  1 <= main.get_week_number d <= 53
  /\ (datetime.month d = 1 -> datetime.day d = 4 -> main.get_week_number d = 1)
  /\ (datetime.month d = 12 -> datetime.day d = 28 -> 52 <= main.get_week_number d).
Proof.
  intros Hv. split; [by apply get_week_number_range|].
  unfold main.get_week_number, datetime.isocalendar.
  pose proof (day_of_year d Hv) as Hday.
  pose proof (year_length (datetime.year d)) as Hnext.
  pose proof (year_length (datetime.year d - 1)) as Hprev.
  replace (datetime.year d - 1 + 1) with (datetime.year d) in Hprev by lia.
  pose proof (isoweek1monday_bounds (datetime.year d)) as [Hw Hwm].
  pose proof (isoweek1monday_bounds (datetime.year d - 1)) as [Hp Hpm].
  pose proof (isoweek1monday_bounds (datetime.year d + 1)) as [Hn Hnm].
  split; intros Hm Hd; rewrite Hm, Hd in *.
  - assert (datetime.ymd2ord (datetime.year d) 1 4 = datetime.ymd2ord (datetime.year d) 1 1 + 3)
      as E by (unfold datetime.ymd2ord; lia).
    rewrite E. clear E Hday.
    revert Hnext Hprev Hw Hwm Hp Hpm Hn Hnm.
    generalize (datetime.ymd2ord (datetime.year d) 1 1).
    generalize (datetime.ymd2ord (datetime.year d - 1) 1 1).
    generalize (datetime.ymd2ord (datetime.year d + 1) 1 1).
    generalize (datetime.isoweek1monday (datetime.year d)).
    generalize (datetime.isoweek1monday (datetime.year d - 1)).
    generalize (datetime.isoweek1monday (datetime.year d + 1)).
    intros wn wp w fn fp f Hnext Hprev Hw Hwm Hp Hpm Hn Hnm.
    assert (365 <= fn - f <= 366) by (destruct (datetime.is_leap (datetime.year d)); lia).
    destruct (Z.ltb_spec ((f + 3 - w) / 7) 0).
    + exfalso. Z.div_mod_to_equations. lia.
    + destruct (Z.leb_spec 52 ((f + 3 - w) / 7)); destruct (Z.leb_spec wn (f + 3)); cbn;
        Z.div_mod_to_equations; lia.
  - assert (datetime.ymd2ord (datetime.year d + 1) 1 1
            - datetime.ymd2ord (datetime.year d) 12 28 = 4) as E.
    { rewrite <- (Z.sub_add (datetime.ymd2ord (datetime.year d) 1 1)
                    (datetime.ymd2ord (datetime.year d + 1) 1 1)), Hnext.
      unfold datetime.ymd2ord, datetime.days_before_month. cbn.
      destruct (datetime.is_leap (datetime.year d)); lia. }
    clear Hday.
    revert E Hnext Hprev Hw Hwm Hp Hpm Hn Hnm.
    generalize (datetime.ymd2ord (datetime.year d) 12 28).
    generalize (datetime.ymd2ord (datetime.year d) 1 1).
    generalize (datetime.ymd2ord (datetime.year d - 1) 1 1).
    generalize (datetime.ymd2ord (datetime.year d + 1) 1 1).
    generalize (datetime.isoweek1monday (datetime.year d)).
    generalize (datetime.isoweek1monday (datetime.year d - 1)).
    generalize (datetime.isoweek1monday (datetime.year d + 1)).
    intros wn wp w fn fp f t E Hnext Hprev Hw Hwm Hp Hpm Hn Hnm.
    assert (365 <= fn - f <= 366) by (destruct (datetime.is_leap (datetime.year d)); lia).
    assert (365 <= f - fp <= 366) by (destruct (datetime.is_leap (datetime.year d - 1)); lia).
    destruct (Z.ltb_spec ((t - w) / 7) 0).
    + cbn. Z.div_mod_to_equations. lia.
    + destruct (Z.leb_spec 52 ((t - w) / 7)); destruct (Z.leb_spec wn t); cbn;
        Z.div_mod_to_equations; lia.
Qed.

Lemma get_week_number_iso_witness :
  1 <= main.get_week_number Sample.created <= 53.
Proof.
  apply (get_week_number_iso Sample.created).
  unfold datetime.valid. cbn. lia.
Defined.

End week_numbers.

(** ** The backup loop never stops and counts what it copies *)

Section loop_counts.
Import OS main Spec.


(** Placing a file a second time gives the same destination and changes
    nothing: the directories are made once. *)
Theorem create_backup_hierarchy_idempotent (w w1 : World) (backup_root file_path dest : string)
    (excluded_size_files : list excluded_file) :
  create_backup_hierarchy backup_root file_path excluded_size_files w =
    (Ok (Some dest, excluded_size_files), w1) ->
  create_backup_hierarchy backup_root file_path excluded_size_files w1 =
    (Ok (Some dest, excluded_size_files), w1).
Proof.
  intros Hrun.
  destruct (create_backup_hierarchy_placement w backup_root file_path excluded_size_files)
    as (dest' & excluded' & w' & Hrun' & Hp).
  rewrite Hrun in Hrun'. injection Hrun' as <- <- <-.
  inversion Hp as [| st Hst Hsz Hd He Hw |]; subst.
  set (dest_dir := destination_dir backup_root file_path (st_ctime st)) in *.
  unfold create_backup_hierarchy, try_except, bind in Hrun |- *.
  rewrite (get_file_size_readable _ _ _ Hst) in Hrun.
  rewrite (get_file_size_readable (set_dirs _ w) _ st Hst).
  destruct (Z.ltb_spec SIZE_LIMIT (st_size st)); [lia|].
  unfold Sys.getctime in Hrun |- *. cbn [w_stat set_dirs] in *. rewrite Hst in Hrun |- *.
  unfold Sys.makedirs in Hrun |- *. cbn [w_locked w_stat set_dirs] in *.
  fold (week_folder (st_ctime st)) in Hrun |- *.
  fold (extension_folder file_path) in Hrun |- *.
  fold (destination_dir backup_root file_path (st_ctime st)) in Hrun |- *.
  fold dest_dir in Hrun |- *.
  destruct (bool_decide (dest_dir ∈ w_locked w)).
  { cbn in Hrun. discriminate Hrun. }
  destruct (bool_decide (is_Some (w_stat w !! dest_dir))).
  { cbn in Hrun. discriminate Hrun. }
  cbn. f_equal. unfold set_dirs. cbn. f_equal.
  by rewrite <- (assoc_L (∪)), (idemp_L (∪)).
Qed.

Lemma create_backup_hierarchy_idempotent_witness :
  exists w1,
    create_backup_hierarchy "backup_root" "src/notes.md" [] w1 =
      (Ok (Some "backup_root/2024/01/W01/md/notes.md", []), w1).
Proof.
  eexists.
  apply (create_backup_hierarchy_idempotent Sample.world _ "backup_root" "src/notes.md").
  vm_compute. reflexivity.
Defined.

(** [log_excluded_files] never raises; when the log cannot be written it
    reports it and leaves the files as they were. *)
Theorem log_excluded_files_unwritable (w : World) (excluded_files : list excluded_file)
    (log_file : string) :
  (exists w', log_excluded_files excluded_files log_file w = (Ok tt, w'))
  /\ (log_file ∈ w_locked w \/ log_file ∈ w_dirs w ->
      log_excluded_files excluded_files log_file w =
        (Ok tt,
         set_stdout
           (fun o => o ++ ["Error writing log file: "
                           +:+ exn_str (PermissionError log_file)]) w)).
Proof.
  unfold log_excluded_files, try_except, bind, Sys.now, gets, Sys.write_text.
  destruct (bool_decide (log_file ∈ w_locked w) || bool_decide (log_file ∈ w_dirs w))
    eqn:E.
  - split; [by eexists|]. done.
  - split; [by eexists|]. intros [H|H].
    + rewrite bool_decide_eq_true_2 in E by done. done.
    + rewrite (bool_decide_eq_true_2 (log_file ∈ w_dirs w)) in E by done.
      by rewrite orb_true_r in E.
Qed.

Lemma log_excluded_files_unwritable_witness :
  w_text (snd (log_excluded_files [] "old.log"
                 (set_text (insert "old.log" "kept") (set_dirs (fun _ => {[ "old.log" ]}) Sample.world))))
    !! "old.log" = Some "kept".
Proof.
  rewrite (proj2 (log_excluded_files_unwritable
                    (set_text (insert "old.log" "kept")
                       (set_dirs (fun _ => {[ "old.log" ]}) Sample.world))
                    [] "old.log")).
  - vm_compute. reflexivity.
  - right. cbn. set_solver.
Defined.

End loop_counts.

(** ** Reading the configuration *)

Section configuration.
Import OS github_uploader Spec.

(** [load_config] never raises and changes nothing but the output; its
    result always holds the three keys the upload looks up; without a
    configuration file it is the defaults, with the message that the file
    was not found. *)
Theorem load_config_defaults (w : World) (config_file : string) :
  (exists config out,
      load_config config_file w = (Ok config, set_stdout (fun _ => out) w)
      /\ is_Some (config !! "GITHUB_REPO_URL")
      /\ is_Some (config !! "SSH_KEY_PATH")
      /\ is_Some (config !! "COMMIT_MESSAGE"))
  /\ (w_stat w !! config_file = None -> config_file ∉ w_dirs w ->
      load_config config_file w =
        (Ok {[ "GITHUB_REPO_URL" := None; "SSH_KEY_PATH" := None;
               "COMMIT_MESSAGE" := Some "Auto backup - {date}" ]},
         set_stdout (fun o => o ++ ["Config file not found: " +:+ config_file]) w)).
Proof.
  split.
  - destruct (load_config_run w config_file) as (out & Hrun & H1 & H2 & H3).
    by exists (config_read w config_file), out.
  - intros Hst Hd.
    unfold load_config, try_except, bind, Sys.exists_, gets, Sys.print, modify, ret.
    rewrite Hst.
    rewrite bool_decide_eq_false_2 by (intros [? ?]; done).
    rewrite bool_decide_eq_false_2 by done. reflexivity.
Qed.

Lemma load_config_defaults_witness :
  load_config "backup_config.txt" Sample.world =
    (Ok {[ "GITHUB_REPO_URL" := None; "SSH_KEY_PATH" := None;
           "COMMIT_MESSAGE" := Some "Auto backup - {date}" ]},
     set_stdout (fun o => o ++ ["Config file not found: " +:+ "backup_config.txt"])
       Sample.world).
Proof.
  apply (proj2 (load_config_defaults Sample.world "backup_config.txt")).
  - vm_compute. reflexivity.
  - cbn. apply not_elem_of_empty.
Defined.

Lemma contains_chr (c : ascii) (s : string) :
  Py.contains (String c "") s = has_chr c s.
Proof.
  induction s as [|a s IH]; [done|].
  rewrite contains_cons, IH. cbn.
  destruct (decide (c = a)) as [E|E]; destruct (decide (a = c)) as [E'|E'];
    try congruence; done.
Qed.

Lemma split_once_first (c : ascii) (k v : string) :
  has_chr c k = false ->
  Py.split_once c (k +:+ String c v) = (k, v).
Proof.
  induction k as [|a k IH]; intros H.
  - rewrite str_app_nil_l. cbn. by destruct (decide (c = c)).
  - rewrite str_app_cons. cbn in *.
    destruct (decide (a = c)); [done|]. by rewrite IH.
Qed.

(** A line [key=value] sets the trimmed key to the trimmed value, the
    line being cut at its first [=]; the last assignment of a key is the
    one that counts; a line that is blank, a comment or without [=] changes
    nothing. *)
Theorem config_line_assignment (config : dict) (line k v : string) :
  (Py.strip line = k +:+ "=" +:+ v ->
   has_chr "=" k = false -> Py.startswith k "#" = false ->
   config_line config line = <[ Py.strip k := Some (Py.strip v) ]> config
   /\ forall before,
        foldl config_line config (before ++ [line]) !! Py.strip k =
        Some (Some (Py.strip v)))
  /\ (Py.strip line = ""
      \/ Py.startswith (Py.strip line) "#" = true
      \/ has_chr "=" (Py.strip line) = false ->
      config_line config line = config).
Proof.
  split.
  - intros Hline Hk Hhash.
    assert (forall config', config_line config' line =
                            <[ Py.strip k := Some (Py.strip v) ]> config') as Hset.
    { intros config'. unfold config_line. rewrite Hline.
      rewrite bool_decide_eq_false_2 by (by intros [_ ?]%str_app_eq_empty).
      assert (Py.startswith (k +:+ "=" +:+ v) "#" = false) as ->.
      { destruct k as [|a k]; [done|]. rewrite str_app_cons.
        cbn in *. by destruct (decide ("#"%char = a)). }
      cbn [negb andb].
      rewrite contains_chr, has_chr_app. cbn [has_chr].
      change ("=" +:+ v) with (String "=" v).
      cbn [has_chr]. destruct (decide ("="%char = "="%char)); [|done].
      rewrite orb_true_r. by rewrite (split_once_first _ _ _ Hk). }
    split; [apply Hset|].
    intros before. rewrite foldl_app. cbn [foldl]. rewrite Hset.
    apply lookup_insert_eq.
  - intros H. unfold config_line.
    destruct H as [-> | [-> | H]]; [done | by rewrite andb_false_r |].
    destruct (negb _ && negb _); [|done].
    by rewrite contains_chr, H.
Qed.

Lemma config_line_assignment_witness :
  config_line ∅ "  COMMIT_MESSAGE = nightly=yes {date}
" = {[ "COMMIT_MESSAGE" := Some "nightly=yes {date}" ]}.
Proof.
  apply (proj1 (config_line_assignment ∅ "  COMMIT_MESSAGE = nightly=yes {date}
" "COMMIT_MESSAGE " " nightly=yes {date}")); reflexivity.
Defined.

End configuration.

(** ** The steps of the upload *)

Section upload_steps.
Import OS github_uploader Spec.

(** [setup_ssh_environment] never raises.  When it returns [False] it has
    only printed; when it returns [True] the key has mode [0o600] and
    [GIT_SSH_COMMAND] names it.  A key that does not exist gives [False]. *)
Theorem setup_ssh_environment_outcome (w : World) (ssh_key_path : string) :
  exists b w',
    setup_ssh_environment ssh_key_path w = (Ok b, w')
    /\ (b = false -> only_printed w w')
    /\ (b = true ->
        w_environ w' !! "GIT_SSH_COMMAND" =
          Some ("ssh -i " +:+ Py.dquote +:+ ssh_key_path +:+ Py.dquote)
        /\ w_modes w' !! ssh_key_path = Some 384
        /\ w_calls w' = w_calls w /\ w_stat w' = w_stat w /\ w_dirs w' = w_dirs w)
    /\ (w_stat w !! ssh_key_path = None -> ssh_key_path ∉ w_dirs w -> b = false).
Proof.
  unfold setup_ssh_environment, try_except, bind, Sys.exists_, gets, Sys.chmod,
    Sys.setenv, Sys.print, modify, ret.
  destruct (bool_decide_reflect (is_Some (w_stat w !! ssh_key_path))) as [Hst|Hst];
    destruct (bool_decide_reflect (ssh_key_path ∈ w_dirs w)) as [Hd|Hd];
    cbn [orb negb].
  4: { eexists false, _. split; [reflexivity|]. split; [|split; [done|done]].
       intros _. unfold only_printed. by destruct w. }
  all: destruct (bool_decide (ssh_key_path ∈ w_locked w)).
  all: eexists _, _; (split; [reflexivity|]).
  all: split; [first [done | intros _; unfold only_printed; by destruct w]|].
  all: split; [first [done | intros _; cbn; rewrite !lookup_insert_eq; done]|].
  all: intros Hn Hn'; first [done | rewrite Hn in Hst; by destruct Hst].
Qed.

(** With the repository address and the key path set, but no key file at
    that path, the upload returns [False] having only printed: it runs no
    git command and sets no environment variable. *)
Theorem upload_missing_key (w : World) (backup_path config_file : string)
    (url key : string) :
  let config := config_read w config_file in
  config !! "GITHUB_REPO_URL" = Some (Some url) -> url <> "" ->
  config !! "SSH_KEY_PATH" = Some (Some key) -> key <> "" ->
  w_stat w !! key = None -> key ∉ w_dirs w ->
  exists w',
    upload_backup_to_github backup_path config_file w = (Ok false, w')
    /\ only_printed w w'
    /\ last (w_stdout w') = Some ("SSH key not found at: " +:+ key).
Proof.
  intros config Hurl Hu Hkey Hk Hst Hd.
  unfold upload_backup_to_github, bind at 1 2 3, Sys.print at 1 2 3, modify.
  unfold bind at 1.
  match goal with |- context [load_config config_file ?w0] =>
    destruct (load_config_run w0 config_file) as (out & Hload & _);
    rewrite Hload; rewrite !config_read_stdout
  end.
  fold config. clear Hload.
  unfold bind at 1, getitem at 1. rewrite Hurl. unfold ret at 1.
  assert (Py.falsy (Some url) = false) as ->
    by (unfold Py.falsy; by destruct (decide (url = ""))).
  unfold bind at 1, getitem at 1. rewrite Hkey. unfold ret at 1.
  assert (Py.falsy (Some key) = false) as ->
    by (unfold Py.falsy; by destruct (decide (key = ""))).
  cbn [default id].
  unfold bind at 1, setup_ssh_environment, try_except, bind at 1, Sys.exists_, gets.
  cbn [w_stat w_dirs set_stdout]. rewrite Hst.
  rewrite bool_decide_eq_false_2 by (intros [? ?]; done).
  rewrite bool_decide_eq_false_2 by done.
  cbn [orb negb]. unfold bind at 1, Sys.print at 1, modify, ret. cbn [negb].
  eexists. split; [reflexivity|]. split; [reflexivity|]. cbn. apply last_snoc.
Qed.

Lemma upload_missing_key_witness :
  exists w',
    upload_backup_to_github "backups" "backup_config.txt" Sample.no_key_world =
      (Ok false, w')
    /\ only_printed Sample.no_key_world w'
    /\ last (w_stdout w') = Some ("SSH key not found at: " +:+ "/home/me/.ssh/id_rsa").
Proof.
  apply (upload_missing_key Sample.no_key_world "backups" "backup_config.txt"
           "git@github.com:me/backups.git" "/home/me/.ssh/id_rsa").
  - vm_compute. reflexivity.
  - discriminate.
  - vm_compute. reflexivity.
  - discriminate.
  - vm_compute. reflexivity.
  - cbn. apply not_elem_of_empty.
Defined.

End upload_steps.

Section git_sequences.
Import OS github_uploader Spec.




End git_sequences.

(** ** More on exclusion patterns *)

Section patterns.
Import OS main Spec.

Lemma chr_lower_idem (c : ascii) : Py.chr_lower (Py.chr_lower c) = Py.chr_lower c.
Proof. destruct c as [[] [] [] [] [] [] [] []]; reflexivity. Qed.

Lemma lower_idem (s : string) : Py.lower (Py.lower s) = Py.lower s.
Proof. induction s as [|c s IH]; [done|]. cbn. by rewrite chr_lower_idem, IH. Qed.

Lemma chr_lower_hash (c : ascii) : Py.chr_lower c = "#"%char <-> c = "#"%char.
Proof.
  split; [|by intros ->].
  destruct c as [[] [] [] [] [] [] [] []]; vm_compute; intros H;
    first [reflexivity | discriminate H].
Qed.

Lemma startswith_lower_hash (s : string) :
  Py.startswith (Py.lower s) "#" = Py.startswith s "#".
Proof.
  destruct s as [|c s]; [done|]. cbn.
  destruct (decide ("#"%char = Py.chr_lower c)) as [E|E];
    destruct (decide ("#"%char = c)) as [E'|E']; [done| | |done].
  - exfalso. apply E'. symmetry. by apply chr_lower_hash.
  - exfalso. apply E. by rewrite <- E'.
Qed.

(** The patterns [load_exclude_paths] returns are never empty (an empty
    pattern would exclude every file), are in lower case, as the matching
    against the lower-cased path needs, and do not start with [#]. *)
Theorem loaded_patterns_wellformed (w w' : World) (exclude_file : string)
    (excluded : gset string) :
  load_exclude_paths exclude_file w = (Ok excluded, w') ->
  forall x, x ∈ excluded ->
    x <> "" /\ Py.lower x = x /\ Py.startswith x "#" = false.
Proof.
  unfold load_exclude_paths, try_except, bind, Sys.exists_, gets, Sys.read_text,
    Sys.print, modify, ret.
  destruct (bool_decide (is_Some (w_stat w !! exclude_file))
            || bool_decide (exclude_file ∈ w_dirs w)).
  2: { intros [= <- _] x Hx. by apply not_elem_of_empty in Hx. }
  destruct (w_text w !! exclude_file) as [text|].
  2: { intros [= <- _] x Hx. by apply not_elem_of_empty in Hx. }
  intros [= <- _] x Hx.
  apply foldl_exclude_line_elem in Hx as [Hx|(line & _ & [Hne Hhash] & ->)].
  { by apply not_elem_of_empty in Hx. }
  split; [|split].
  - destruct (Py.strip line); [done|discriminate].
  - apply lower_idem.
  - by rewrite startswith_lower_hash.
Qed.

Lemma loaded_patterns_wellformed_witness :
  "node_modules" <> "" /\ Py.lower "node_modules" = "node_modules"
  /\ Py.startswith "node_modules" "#" = false.
Proof.
  apply (loaded_patterns_wellformed Sample.world Sample.world "exlude_paths.txt"
           {[ "node_modules"; "temp" ]}).
  - vm_compute. reflexivity.
  - apply elem_of_union. left. by apply elem_of_singleton.
Defined.

Lemma contains_empty (s : string) : Py.contains "" s = true.
Proof. by destruct s. Qed.

Lemma is_path_excluded_bool (p : string) (S : gset string) (b : bool) :
  (is_path_excluded p S = true <-> b = true) -> is_path_excluded p S = b.
Proof. destruct (is_path_excluded p S), b; intuition congruence. Qed.

Lemma is_path_excluded_or (file_path : string) (S T : gset string) :
  is_path_excluded file_path (S ∪ T) =
    is_path_excluded file_path S || is_path_excluded file_path T.
Proof.
  apply is_path_excluded_bool.
  rewrite orb_true_iff, !is_path_excluded_true. split.
  - intros (e & [He|He]%elem_of_union & Hc); [left|right]; by exists e.
  - intros [(e & He & Hc)|(e & He & Hc)]; exists e; split; try done;
      apply elem_of_union; auto.
Qed.

(** Exclusion is a disjunction over the patterns and looks at the path
    without regard to case; with the empty pattern in the set every path
    is excluded and discovery finds nothing. *)
Theorem is_path_excluded_union (file_path : string) (S T : gset string) :
  is_path_excluded file_path (S ∪ T) =
    is_path_excluded file_path S || is_path_excluded file_path T
  /\ is_path_excluded (Py.lower file_path) S = is_path_excluded file_path S
  /\ ("" ∈ S ->
      is_path_excluded file_path S = true
      /\ forall directory tree, find_all_files directory tree S = []).
Proof.
  split; [|split].
  - apply is_path_excluded_or.
  - apply is_path_excluded_bool. rewrite !is_path_excluded_true.
    by rewrite lower_idem.
  - intros Hempty.
    assert (forall p, is_path_excluded p S = true) as Hall.
    { intros p. apply is_path_excluded_true. exists "".
      split; [done|apply contains_empty]. }
    split; [apply Hall|].
    intros directory tree. unfold find_all_files.
    induction (os_walk (prune_dirs S) directory tree) as [|[[root dirs] fs] rest IH];
      [done|].
    cbn [flat_map]. rewrite IH, app_nil_r.
    induction fs as [|f fs IHf]; [done|].
    cbn [flat_map]. rewrite IHf, app_nil_r. cbn zeta. by rewrite Hall.
Qed.

Lemma is_path_excluded_union_witness :
  is_path_excluded "project/notes.md" {[ "" ]} = true
  /\ forall directory tree, find_all_files directory tree {[ "" ]} = [].
Proof.
  apply (proj2 (proj2 (is_path_excluded_union "project/notes.md" {[ "" ]} ∅))).
  by apply elem_of_singleton.
Defined.

End patterns.

Section dead_patterns.
Import OS main Spec.

Lemma startswith_has_chr (c : ascii) (s e : string) :
  Py.startswith s e = true -> has_chr c e = true -> has_chr c s = true.
Proof.
  revert s. induction e as [|a e IH]; intros s Hs He; [done|].
  destruct s as [|b s]; [done|]. cbn in *.
  destruct (decide (a = b)) as [<-|]; [|done].
  destruct (decide (a = c)); [done|]. by apply IH.
Qed.

Lemma contains_has_chr (c : ascii) (e s : string) :
  Py.contains e s = true -> has_chr c e = true -> has_chr c s = true.
Proof.
  intros Hc He. induction s as [|b s IH].
  - cbn in Hc. rewrite orb_false_r in Hc. by destruct e.
  - rewrite contains_cons in Hc. apply orb_true_iff in Hc as [Hc|Hc].
    + by apply (startswith_has_chr c _ e).
    + cbn. destruct (decide (b = c)); [done|]. by apply IH.
Qed.

Lemma chr_lower_not_upper (a : ascii) :
  (65 <=? Py.ord (Py.chr_lower a)) && (Py.ord (Py.chr_lower a) <=? 90) = false.
Proof. destruct a as [[] [] [] [] [] [] [] []]; reflexivity. Qed.

Lemma lower_has_no_upper (c : ascii) (s : string) :
  (65 <=? Py.ord c) && (Py.ord c <=? 90) = true ->
  has_chr c (Py.lower s) = false.
Proof.
  intros Hc. induction s as [|a s IH]; [done|]. cbn.
  destruct (decide (Py.chr_lower a = c)) as [<-|]; [|done].
  by rewrite chr_lower_not_upper in Hc.
Qed.

Lemma has_upper_chr (e : string) :
  has_upper e = true ->
  exists c, (65 <=? Py.ord c) && (Py.ord c <=? 90) = true /\ has_chr c e = true.
Proof.
  induction e as [|a e IH]; [done|]. cbn.
  intros [H|H]%orb_true_iff.
  - exists a. split; [done|]. by destruct (decide (a = a)).
  - destruct (IH H) as (c & Hc & He). exists c. split; [done|].
    destruct (decide (a = c)); done.
Qed.

(** A pattern that holds an upper-case letter never matches: the path is
    lower-cased before the search, the pattern is not.  (The loader
    lower-cases what it reads; a set built otherwise has to do the same.) *)
Theorem uppercase_pattern_never_matches (file_path e : string) (S : gset string) :
  has_upper e = true ->
  is_path_excluded file_path {[ e ]} = false
  /\ is_path_excluded file_path (S ∪ {[ e ]}) = is_path_excluded file_path S.
Proof.
  intros Hup.
  assert (Py.contains e (Py.lower file_path) = false) as Hno.
  { destruct (Py.contains e (Py.lower file_path)) eqn:E; [|done].
    destruct (has_upper_chr e Hup) as (c & Hc & He).
    pose proof (contains_has_chr c e _ E He) as Hin.
    by rewrite (lower_has_no_upper c _ Hc) in Hin. }
  assert (is_path_excluded file_path {[ e ]} = false) as Hone.
  { apply is_path_excluded_false. by intros e' ->%elem_of_singleton. }
  split; [done|].
  by rewrite is_path_excluded_or, Hone, orb_false_r.
Qed.

Lemma uppercase_pattern_never_matches_witness :
  is_path_excluded "project/Node_Modules/readme.md" {[ "Node_Modules" ]} = false.
Proof.
  exact (proj1 (uppercase_pattern_never_matches "project/Node_Modules/readme.md"
                  "Node_Modules" ∅ eq_refl)).
Defined.

End dead_patterns.
